(** * toggl-go: the request / response pipeline of the Toggl client library

    A shallow embedding of the Go sources
      - [reports] (client, parameter encoder, [get], [checkResponse],
        [decodeJSON], [ReportsError]) and
      - [track/toggl/tags.go] ([GetTags], [CreateTag], [UpdateTag],
        [DeleteTag]),
    together with the properties stated about them.

    Conventions.
      - A Go [string] is a [string]; a Go [int] is a [Z].
      - A Go pointer that may be [nil] is an [option].
      - A Go [error] result is an [option error] ([None] is [nil]).
      - A Go [map[string][]string] ([url.Values], [http.Header]) is a
        [gmap string (list string)].
      - Code that talks to the network runs in the monad [M], which threads
        the list of requests handed to the transport so far and records a
        run-time panic as an outcome of its own. *)

From Stdlib Require Import ZArith String Ascii List Bool Lia.
From stdpp Require Import base option gmap strings list.

Set Warnings "-register-all".

Local Open Scope Z_scope.
Local Open Scope string_scope.

(** ** Strings of the Go standard library used by the client *)

Module GoStrings.

(** [s != ""] *)
Definition nonEmpty (s : string) : bool := negb (String.eqb s "").

(** One decimal digit. *)
Definition digit (d : Z) : ascii := ascii_of_nat (48 + Z.to_nat d).

(** The decimal digits of a non-negative number, most significant first;
    [fuel] bounds the number of digits. *)
Fixpoint digitsFuel (fuel : nat) (n : Z) (acc : string) : string :=
  match fuel with
  | O => acc
  | S fuel' =>
      let acc' := String (digit (n mod 10)) acc in
      if (n / 10 =? 0)%Z then acc' else digitsFuel fuel' (n / 10) acc'
  end.

Definition digits (n : Z) : string :=
  digitsFuel (S (Z.to_nat (Z.log2 n))) n "".

(** [strconv.Itoa] *)
Definition Itoa (n : Z) : string :=
  if (n <? 0)%Z then "-" ++ digits (- n) else digits n.

Fixpoint zeros (n : nat) : string :=
  match n with O => "" | S n' => String "0" (zeros n') end.

(** [appendInt] of package [time]: the number in decimal, zero-padded on the
    left to [width] digits, after a minus sign when negative. *)
Definition appendInt (x : Z) (width : nat) : string :=
  let u := digits (Z.abs x) in
  (if (x <? 0)%Z then "-" else "") ++ zeros (width - String.length u) ++ u.

End GoStrings.

Import GoStrings.

(** ** Package [time]: the part the parameter encoder uses *)

Module GoTime.

(** A [time.Time]: an instant, as seconds and nanoseconds since January 1,
    year 1, 00:00:00 UTC, and the offset (in seconds east of UTC) of its
    location at that instant.  The zero value is the zero instant in UTC. *)
Record Time := mkTime { sec : Z; nsec : Z; offset : Z }.

Definition zeroTime : Time := mkTime 0 0 0.

(** [Time.IsZero]: [t.sec() == 0 && t.nsec() == 0]; the location plays no
    part. *)
Definition IsZero (t : Time) : bool := (sec t =? 0)%Z && (nsec t =? 0)%Z.

(** Year, month and day of the day that lies [days] days after January 1,
    year 1, in the proleptic Gregorian calendar. *)
Definition civil (days : Z) : Z * Z * Z :=
  let z := (days + 306)%Z in
  let era := (z / 146097)%Z in
  let doe := (z - era * 146097)%Z in
  let yoe := ((doe - doe / 1460 + doe / 36524 - doe / 146096) / 365)%Z in
  let doy := (doe - (365 * yoe + yoe / 4 - yoe / 100))%Z in
  let mp := ((5 * doy + 2) / 153)%Z in
  let d := (doy - (153 * mp + 2) / 5 + 1)%Z in
  let m := (if (mp <? 10)%Z then mp + 3 else mp - 9)%Z in
  let y := (yoe + era * 400 + (if (m <=? 2)%Z then 1 else 0))%Z in
  (y, m, d).

(** The number of days from January 1, year 1 to the given date. *)
Definition daysFromCivil (y m d : Z) : Z :=
  let y' := (if (m <=? 2)%Z then y - 1 else y)%Z in
  let era := (y' / 400)%Z in
  let yoe := (y' - era * 400)%Z in
  let mp := (if (m <=? 2)%Z then m + 9 else m - 3)%Z in
  let doy := ((153 * mp + 2) / 5 + d - 1)%Z in
  let doe := (yoe * 365 + yoe / 4 - yoe / 100 + doy)%Z in
  (era * 146097 + doe - 306)%Z.

(** [Time.Format("2006-01-02")]: the date in the time's own location, the
    year on four digits, month and day on two. *)
Definition FormatDate (t : Time) : string :=
  let '(y, m, d) := civil ((sec t + offset t) / 86400) in
  appendInt y 4 ++ "-" ++ appendInt m 2 ++ "-" ++ appendInt d 2.

(** [time.Date(y, m, d, hh, mm, ss, ns, time.UTC)] for fields in range. *)
Definition DateUTC (y m d hh mm ss ns : Z) : Time :=
  mkTime (daysFromCivil y m d * 86400 + hh * 3600 + mm * 60 + ss) ns 0.

End GoTime.

(** ** Package [net/url]: query values and URLs *)

Module GoURL.

(** [url.Values] is [map[string][]string]. *)
Abbreviation Values := (gmap string (list string)).

(** [Values.Add]: [v[key] = append(v[key], value)]. *)
Definition Add (key value : string) (v : Values) : Values :=
  <[key := (default [] (v !! key) ++ [value])%list]> v.

(** [Values.Get]: the first value of the key, or the empty string. *)
Definition Get (key : string) (v : Values) : string :=
  match v !! key with
  | Some (x :: _) => x
  | _ => ""
  end.

(** [Values.Has] *)
Definition Has (key : string) (v : Values) : bool :=
  match v !! key with Some _ => true | None => false end.

(** The fields of [url.URL] that this client reads or writes.  User
    information, percent-escaping and host validation are outside the
    model. *)
Record URL := mkURL {
  Scheme : string;
  Opaque : string;
  Host : string;
  Path : string;
  RawQuery : string;
  Fragment : string
}.

Definition setPath (p : string) (u : URL) : URL :=
  mkURL (Scheme u) (Opaque u) (Host u) p (RawQuery u) (Fragment u).

Definition isCTL (c : ascii) : bool :=
  let n := nat_of_ascii c in (n <? 32)%nat || (n =? 127)%nat.

Fixpoint stringContainsCTLByte (s : string) : bool :=
  match s with
  | EmptyString => false
  | String c s' => isCTL c || stringContainsCTLByte s'
  end.

Definition isLetter (c : ascii) : bool :=
  let n := nat_of_ascii c in
  ((97 <=? n) && (n <=? 122))%nat || ((65 <=? n) && (n <=? 90))%nat.

Definition isSchemeExtra (c : ascii) : bool :=
  let n := nat_of_ascii c in
  ((48 <=? n) && (n <=? 57))%nat || (n =? 43)%nat || (n =? 45)%nat
  || (n =? 46)%nat.

Definition toLowerByte (c : ascii) : ascii :=
  let n := nat_of_ascii c in
  if ((65 <=? n) && (n <=? 90))%nat then ascii_of_nat (n + 32) else c.

Fixpoint ToLower (s : string) : string :=
  match s with
  | EmptyString => EmptyString
  | String c s' => String (toLowerByte c) (ToLower s')
  end.

(** [strings.Cut(s, sep)] for a one-byte separator: the text before the first
    [sep], the text after it, and whether [sep] occurs. *)
Fixpoint Cut (sep : ascii) (s : string) : string * string * bool :=
  match s with
  | EmptyString => (EmptyString, EmptyString, false)
  | String c s' =>
      if Ascii.eqb c sep then (EmptyString, s', true)
      else let '(b, a, found) := Cut sep s' in (String c b, a, found)
  end.

Fixpoint Contains (sep : ascii) (s : string) : bool :=
  match s with
  | EmptyString => false
  | String c s' => Ascii.eqb c sep || Contains sep s'
  end.

Definition HasPrefix (s pre : string) : bool := String.prefix pre s.

(** The result of [getScheme]: an error, or the scheme and the rest. *)
Fixpoint getSchemeFrom (i : nat) (whole s : string) (acc : string)
  : option (string * string) :=
  match s with
  | EmptyString => Some ("", whole)
  | String c s' =>
      if isLetter c then getSchemeFrom (S i) whole s' (acc ++ String c "")
      else if isSchemeExtra c then
        match i with
        | O => Some ("", whole)
        | _ => getSchemeFrom (S i) whole s' (acc ++ String c "")
        end
      else if Ascii.eqb c ":" then
        match i with
        | O => None
        | _ => Some (acc, s')
        end
      else Some ("", whole)
  end.

Definition getScheme (rawURL : string) : option (string * string) :=
  getSchemeFrom 0 rawURL rawURL "".

(** [url.Parse]; [None] is a parse error (the returned pointer is then
    [nil]). *)
Definition Parse (rawURL : string) : option URL :=
  let '(u, frag, _) := Cut "#" rawURL in
  if stringContainsCTLByte u then None
  else if String.eqb u "*" then Some (mkURL "" "" "" "*" "" frag)
  else
    match getScheme u with
    | None => None
    | Some (scheme, rest) =>
        let scheme := ToLower scheme in
        let '(rest, query, _) := Cut "?" rest in
        if negb (HasPrefix rest "/") && nonEmpty scheme then
          Some (mkURL scheme rest "" "" query frag)
        else if negb (HasPrefix rest "/")
                && Contains ":" (fst (fst (Cut "/" rest))) then None
        else if HasPrefix rest "//"
                && (nonEmpty scheme || negb (HasPrefix rest "///")) then
          let authority := String.substring 2 (String.length rest - 2) rest in
          let '(host, path, found) := Cut "/" authority in
          Some (mkURL scheme "" host (if found then "/" ++ path else "")
                  query frag)
        else Some (mkURL scheme "" "" rest query frag)
    end.

(** [URL.String] *)
Definition String_ (u : URL) : string :=
  (if nonEmpty (Scheme u) then Scheme u ++ ":" else "")
  ++ (if nonEmpty (Opaque u) then Opaque u
      else
        (if nonEmpty (Scheme u) || nonEmpty (Host u) then
           (if nonEmpty (Host u) || nonEmpty (Path u) then "//" else "")
           ++ Host u
         else "")
        ++ (if nonEmpty (Path u) && negb (HasPrefix (Path u) "/")
               && nonEmpty (Host u) then "/" else "")
        ++ Path u)
  ++ (if nonEmpty (RawQuery u) then "?" ++ RawQuery u else "")
  ++ (if nonEmpty (Fragment u) then "#" ++ Fragment u else "").

End GoURL.

(** ** Errors

    Go's [error] interface, with the dynamic types that occur in this
    program.  A [nil] error is [None : option error]. *)

(** The anonymous struct inside [ReportsError]. *)
Record ReportsErrorBody := mkReportsErrorBody {
  Message : string;     (* `json:"message"` *)
  Tip : string;         (* `json:"tip"` *)
  StatusCode : Z        (* `json:"code"` *)
}.

(** [ReportsError] represents a response of unsuccessful request. *)
Record ReportsError := mkReportsError {
  Err : ReportsErrorBody   (* `json:"error"` *)
}.

Inductive error : Type :=
| errorString (msg : string)
    (* errors.New, fmt.Errorf without verbs *)
| urlError (op url msg : string)
    (* *url.Error, from url.Parse inside http.NewRequest *)
| transportError (msg : string)
    (* what the HTTP transport reports: no connection, context cancelled *)
| SyntaxError (msg : string)
    (* *json.SyntaxError, io.EOF, io.ErrUnexpectedEOF: the scanner's errors *)
| UnmarshalTypeError (value type : string)
    (* *json.UnmarshalTypeError *)
| timeParseError (value : string)
    (* *time.ParseError, from Time.UnmarshalJSON *)
| reportsError (e : ReportsError)
    (* *ReportsError *)
| withMessage (cause : error) (msg : string).
    (* errors.Wrap of github.com/pkg/errors *)

(** [errors.Wrap]: [nil] for a [nil] error. *)
Definition Wrap (err : option error) (message : string) : option error :=
  match err with
  | None => None
  | Some e => Some (withMessage e message)
  end.

(** The errors of package [encoding/json]. *)
Definition isJSONError (e : error) : bool :=
  match e with
  | SyntaxError _ | UnmarshalTypeError _ _ | timeParseError _ => true
  | _ => false
  end.

(** ** Outcomes and the monad of effectful code

    A call either returns or panics (a [nil] pointer is dereferenced).
    Effectful code transforms a state of type [S]. *)

Inductive Outcome (A : Type) : Type :=
| Returned (a : A)
| Panicked (msg : string).
Arguments Returned {A} a.
Arguments Panicked {A} msg.

Definition M (S A : Type) : Type := S -> Outcome A * S.

Definition ret {S A : Type} (a : A) : M S A := fun s => (Returned a, s).

Definition panic {S A : Type} (msg : string) : M S A :=
  fun s => (Panicked msg, s).

Definition bind {S A B : Type} (m : M S A) (k : A -> M S B) : M S B :=
  fun s =>
    match m s with
    | (Returned a, s') => k a s'
    | (Panicked msg, s') => (Panicked msg, s')
    end.

Definition gets {S A : Type} (f : S -> A) : M S A :=
  fun s => (Returned (f s), s).

Definition modify {S : Type} (f : S -> S) : M S unit :=
  fun s => (Returned tt, f s).

Declare Scope go_scope.
Delimit Scope go_scope with go.
Notation "x <- m ;; k" := (bind m (fun x => k))
  (at level 100, m at next level, right associativity) : go_scope.

(** The message of the panic on a [nil] pointer. *)
Definition nilDeref : string :=
  "invalid memory address or nil pointer dereference".

(** ** Package [encoding/json]: decoding a JSON value into a Go value *)

Module GoJSON.

(** A JSON value as the scanner of [encoding/json] delivers it.  A number
    literal without fraction and exponent is [JInt]; any other number
    literal is [JReal] and keeps its text. *)
Inductive json : Type :=
| JNull
| JBool (b : bool)
| JInt (n : Z)
| JReal (lit : string)
| JString (s : string)
| JArray (elems : list json)
| JObject (members : list (string * json)).

(** How [UnmarshalTypeError.Value] names a JSON value. *)
Definition describe (v : json) : string :=
  match v with
  | JNull => "null"
  | JBool _ => "bool"
  | JInt n => "number " ++ Itoa n
  | JReal lit => "number " ++ lit
  | JString _ => "string"
  | JArray _ => "array"
  | JObject _ => "object"
  end.

(** The decoder's state: the first type error saved so far
    ([decodeState.savedError]), and the error that stopped the decoding, if
    one did. *)
Record decodeState := mkDecodeState {
  savedError : option error;
  stopped : option error
}.

Definition initState : decodeState := mkDecodeState None None.

(** [decodeState.saveError]: only the first error is kept. *)
Definition saveError (e : error) (d : decodeState) : decodeState :=
  match savedError d with
  | None => mkDecodeState (Some e) (stopped d)
  | Some _ => d
  end.

Definition stop (e : error) (d : decodeState) : decodeState :=
  mkDecodeState (savedError d) (Some e).

(** A Go type that [encoding/json] can decode into: [value v out d] stores
    the JSON value [v] into [out], as [decodeState.value] does through the
    pointer it is given.  [typeName] is the Go name of the type. *)
Class Unmarshal (T : Type) := {
  typeName : string;
  value : json -> T -> decodeState -> T * decodeState
}.

(** [decodeState.unmarshal]: the error that stopped the decoding, or else
    the saved type error; the output keeps what was stored in it. *)
Definition unmarshal {T : Type} `{Unmarshal T} (v : json) (out : T)
  : T * option error :=
  let '(out', d) := value v out initState in
  (out', match stopped d with Some e => Some e | None => savedError d end).

(** [string]: a JSON string is stored, [null] is skipped, anything else is a
    type error. *)
#[export] Instance Unmarshal_string : Unmarshal string := {
  typeName := "string";
  value v out d :=
    match v with
    | JString s => (s, d)
    | JNull => (out, d)
    | _ => (out, saveError (UnmarshalTypeError (describe v) "string") d)
    end
}.

Definition minInt : Z := (- 2 ^ 63)%Z.
Definition maxInt : Z := (2 ^ 63 - 1)%Z.
Definition inInt (n : Z) : bool := (minInt <=? n)%Z && (n <=? maxInt)%Z.

(** [int] (64 bits): an integer literal in range is stored, [null] is
    skipped, anything else is a type error. *)
#[export] Instance Unmarshal_int : Unmarshal Z := {
  typeName := "int";
  value v out d :=
    match v with
    | JInt n =>
        if inInt n then (n, d)
        else (out, saveError (UnmarshalTypeError (describe v) "int") d)
    | JNull => (out, d)
    | _ => (out, saveError (UnmarshalTypeError (describe v) "int") d)
    end
}.

(** A pointer [*T]: [null] stores [nil]; any other value is decoded into the
    pointee, which is allocated (zero) when the pointer is [nil]. *)
Definition valuePtr {T : Type} `{Unmarshal T} (zero : T) (v : json)
  (out : option T) (d : decodeState) : option T * decodeState :=
  match v with
  | JNull => (None, d)
  | _ =>
      let '(x, d') := value v (default zero out) d in (Some x, d')
  end.

(** The elements of a JSON array, each decoded into a fresh element, until
    the decoding is stopped. *)
Fixpoint valueElems {T : Type} `{Unmarshal T} (zero : T) (elems : list json)
  (d : decodeState) : list T * decodeState :=
  match elems with
  | [] => ([], d)
  | v :: rest =>
      let '(x, d') := value v zero d in
      match stopped d' with
      | Some _ => ([x], d')
      | None => let '(xs, d'') := valueElems zero rest d' in (x :: xs, d'')
      end
  end.

(** A slice [[]T] ([None] is the [nil] slice): [null] stores [nil]; an array
    replaces the slice by its decoded elements (an empty, non-nil slice for
    the empty array); anything else is a type error. *)
Definition valueSlice {T : Type} `{Unmarshal T} (zero : T) (name : string)
  (v : json) (out : option (list T)) (d : decodeState)
  : option (list T) * decodeState :=
  match v with
  | JNull => (None, d)
  | JArray elems =>
      let '(xs, d') := valueElems zero elems d in (Some xs, d')
  | _ => (out, saveError (UnmarshalTypeError (describe v) name) d)
  end.

(** A struct field: its JSON name and how a value is stored into it. *)
Record field (T : Type) := mkField {
  fieldName : string;
  store : json -> T -> decodeState -> T * decodeState
}.
Arguments mkField {T} fieldName store.
Arguments fieldName {T} f.
Arguments store {T} f.

(** The field a key selects: the field of exactly that name, or else the
    first one that matches it without regard to case. *)
Definition findField {T : Type} (fields : list (field T)) (key : string)
  : option (field T) :=
  match List.find (fun f => String.eqb (fieldName f) key) fields with
  | Some f => Some f
  | None =>
      List.find
        (fun f => String.eqb (GoURL.ToLower (fieldName f)) (GoURL.ToLower key))
        fields
  end.

(** The members of a JSON object, in order, each stored into the field its
    key selects; a key without field is skipped. *)
Fixpoint valueMembers {T : Type} (fields : list (field T))
  (members : list (string * json)) (out : T) (d : decodeState)
  : T * decodeState :=
  match members with
  | [] => (out, d)
  | (key, v) :: rest =>
      let '(out', d') :=
        match findField fields key with
        | Some f => store f v out d
        | None => (out, d)
        end in
      match stopped d' with
      | Some _ => (out', d')
      | None => valueMembers fields rest out' d'
      end
  end.

(** A struct: an object is decoded member by member, [null] is skipped,
    anything else is a type error. *)
Definition valueStruct {T : Type} (name : string) (fields : list (field T))
  (v : json) (out : T) (d : decodeState) : T * decodeState :=
  match v with
  | JObject members => valueMembers fields members out d
  | JNull => (out, d)
  | _ => (out, saveError (UnmarshalTypeError (describe v) name) d)
  end.

End GoJSON.

(** ** Package [net/http]: headers, requests, responses, the transport *)

Module GoHTTP.

Import GoJSON.

(** [http.Header] is [map[string][]string]. *)
Abbreviation Header := (gmap string (list string)).

(** [validHeaderFieldByte]: the bytes of an HTTP token. *)
Definition validHeaderFieldByte (c : ascii) : bool :=
  let n := nat_of_ascii c in
  GoURL.isLetter c
  || ((48 <=? n) && (n <=? 57))%nat
  || existsb (Nat.eqb n)
       [33; 35; 36; 37; 38; 39; 42; 43; 45; 46; 94; 95; 96; 124; 126]%nat.

Fixpoint isToken (s : string) : bool :=
  match s with
  | EmptyString => true
  | String c s' => validHeaderFieldByte c && isToken s'
  end.

Definition toUpperByte (c : ascii) : ascii :=
  let n := nat_of_ascii c in
  if ((97 <=? n) && (n <=? 122))%nat then ascii_of_nat (n - 32) else c.

Fixpoint canonical (upper : bool) (s : string) : string :=
  match s with
  | EmptyString => EmptyString
  | String c s' =>
      let c' := if upper then toUpperByte c else GoURL.toLowerByte c in
      String c' (canonical (Ascii.eqb c' "-") s')
  end.

(** [textproto.CanonicalMIMEHeaderKey]: a key that is not a token is
    returned unchanged. *)
Definition CanonicalMIMEHeaderKey (s : string) : string :=
  if isToken s then canonical true s else s.

(** [Header.Set] *)
Definition Set_ (key value : string) (h : Header) : Header :=
  <[CanonicalMIMEHeaderKey key := [value]]> h.

(** [Header.Get] *)
Definition Get (key : string) (h : Header) : string :=
  match h !! CanonicalMIMEHeaderKey key with
  | Some (x :: _) => x
  | _ => ""
  end.

(** A non-nil [context.Context]; the pipeline only hands it to the
    transport. *)
Inductive Context : Type :=
| Background
| Canceled
| WithDeadline (t : GoTime.Time).

(** The part of [http.Request] the pipeline sets. *)
Record Request := mkRequest {
  Method : string;
  URL : GoURL.URL;
  BasicAuth : option (string * string);
  Ctx : Context
}.

(** [http.NewRequest(method, url, nil)]: the method must be a token and the
    URL must parse; the new request carries the background context. *)
Definition NewRequest (method url : string) : Request + error :=
  let method := if nonEmpty method then method else "GET" in
  if negb (isToken method) then
    inr (errorString ("net/http: invalid method " ++ method))
  else
    match GoURL.Parse url with
    | None => inr (urlError "parse" url "invalid URL")
    | Some u => inl (mkRequest method u None Background)
    end.

(** [Request.SetBasicAuth] *)
Definition SetBasicAuth (username password : string) (r : Request) : Request :=
  mkRequest (Method r) (URL r) (Some (username, password)) (Ctx r).

(** [Request.WithContext], for a non-nil context. *)
Definition WithContext (ctx : Context) (r : Request) : Request :=
  mkRequest (Method r) (URL r) (BasicAuth r) ctx.

(** What can be read from [Response.Body]: a stream that starts with one
    well-formed JSON value, or anything else (empty, truncated, an HTML
    page). *)
Inductive Body : Type :=
| BodyJSON (v : json)
| BodyOther (raw : string).

(** The part of [http.Response] the pipeline reads. *)
Record Response := mkResponse {
  StatusCode : Z;
  RespBody : Body
}.

(** A [*http.Client] other than [nil]: the default client or one the caller
    made. *)
Inductive Client : Type :=
| DefaultClient
| CustomClient (id : nat).

(** What the clients answer: given the client, the requests sent before and
    the request, the two results of [Client.Do]. *)
Definition Network : Type :=
  Client -> list Request -> Request -> option Response * option error.

(** [Decoder.Decode] of a decoder reading [body]: the scanner's error when
    the stream does not start with a JSON value, before anything is stored;
    otherwise the value is unmarshalled into [out]. *)
Definition Decode {T : Type} `{Unmarshal T} (body : Body) (out : T)
  : T * option error :=
  match body with
  | BodyJSON v => unmarshal v out
  | BodyOther raw =>
      (out, Some (SyntaxError
                    (if nonEmpty raw then "invalid character" else "EOF")))
  end.

End GoHTTP.

(** ** Package [reports] *)

Module Reports.

Import GoTime GoJSON.
Local Open Scope go_scope.

Definition basicAuthPassword : string := "api_token".
Definition defaultBaseURL : string := "https://toggl.com".

(** [Client] implements a basic request handling used by all of the
    reports. *)
Record Client := mkClient {
  httpClient : option GoHTTP.Client;
  apiToken : string;
  header : GoHTTP.Header;
  url : option GoURL.URL
}.

(** [StandardRequestParameters] represents request parameters used in all of
    the reports. *)
Record StandardRequestParameters := mkStandardRequestParameters {
  UserAgent : string;
  WorkSpaceId : string;
  Since : Time;
  Until : Time;
  Billable : string;
  ClientIds : string;
  ProjectIds : string;
  UserIds : string;
  MembersOfGroupIds : string;
  OrMembersOfGroupIds : string;
  TagIds : string;
  TaskIds : string;
  TimeEntryIds : string;
  Description : string;
  WithoutDescription : bool;
  OrderField : string;
  OrderDesc : bool;
  DistinctRates : bool;
  Rounding : bool;
  DisplayHours : string
}.

(** The zero value of [StandardRequestParameters]. *)
Definition zeroParameters : StandardRequestParameters :=
  mkStandardRequestParameters "" "" zeroTime zeroTime "" "" "" "" "" "" ""
    "" "" "" false "" false false false "".

(** The statement [if cond { values.Add(key, value) }]: the values after
    it. *)
Definition addIf (cond : bool) (key value : string) (values : GoURL.Values)
  : GoURL.Values :=
  if cond then GoURL.Add key value values else values.

(** [StandardRequestParameters.values], for a non-nil receiver. *)
Definition values (params : StandardRequestParameters) : GoURL.Values :=
  let values : GoURL.Values := ∅ in
  (* user_agent and workspace_id are required. *)
  let values := GoURL.Add "user_agent" (UserAgent params) values in
  let values := GoURL.Add "workspace_id" (WorkSpaceId params) values in
  (* since and until must be ISO 8601 date (YYYY-MM-DD) format *)
  let values :=
    addIf (negb (IsZero (Since params))) "since"
      (FormatDate (Since params)) values in
  let values :=
    addIf (negb (IsZero (Until params))) "until"
      (FormatDate (Until params)) values in
  let values :=
    addIf (nonEmpty (Billable params)) "billable" (Billable params) values in
  let values :=
    addIf (nonEmpty (ClientIds params)) "client_ids"
      (ClientIds params) values in
  let values :=
    addIf (nonEmpty (ProjectIds params)) "project_ids"
      (ProjectIds params) values in
  let values :=
    addIf (nonEmpty (UserIds params)) "user_ids" (UserIds params) values in
  let values :=
    addIf (nonEmpty (MembersOfGroupIds params)) "members_of_group_ids"
      (MembersOfGroupIds params) values in
  let values :=
    addIf (nonEmpty (OrMembersOfGroupIds params)) "or_members_of_group_ids"
      (OrMembersOfGroupIds params) values in
  let values :=
    addIf (nonEmpty (TagIds params)) "tag_ids" (TagIds params) values in
  let values :=
    addIf (nonEmpty (TaskIds params)) "task_ids" (TaskIds params) values in
  let values :=
    addIf (nonEmpty (TimeEntryIds params)) "time_entry_ids"
      (TimeEntryIds params) values in
  let values :=
    addIf (nonEmpty (Description params)) "description"
      (Description params) values in
  let values :=
    addIf (WithoutDescription params) "without_description" "true" values in
  let values :=
    addIf (nonEmpty (OrderField params)) "order_field"
      (OrderField params) values in
  let values := addIf (OrderDesc params) "order_desc" "on" values in
  let values := addIf (DistinctRates params) "distinct_rates" "on" values in
  let values := addIf (Rounding params) "rounding" "on" values in
  let values :=
    addIf (nonEmpty (DisplayHours params)) "display_hours"
      (DisplayHours params) values in
  values.

(** The interface [urlEncoder]. *)
Class urlEncoder (P : Type) := urlEncode : P -> string.

Definition newline : string := String (ascii_of_nat 10) "".

(** [ReportsError.Error]: ["HTTP Status: %d\n%s\n\n%s\n"]. *)
Definition Error (e : ReportsError) : string :=
  "HTTP Status: " ++ Itoa (StatusCode (Err e)) ++ newline
  ++ Message (Err e) ++ newline ++ newline
  ++ Tip (Err e) ++ newline.

(** The zero value that [new(ReportsError)] points to. *)
Definition newReportsError : ReportsError :=
  mkReportsError (mkReportsErrorBody "" "" 0).

(** How [encoding/json] decodes into the anonymous struct of
    [ReportsError], from its field tags. *)
Definition errFields : list (field ReportsErrorBody) :=
  [ mkField "message"
      (fun v o d =>
         let '(x, d') := value v (Message o) d in
         (mkReportsErrorBody x (Tip o) (StatusCode o), d'));
    mkField "tip"
      (fun v o d =>
         let '(x, d') := value v (Tip o) d in
         (mkReportsErrorBody (Message o) x (StatusCode o), d'));
    mkField "code"
      (fun v o d =>
         let '(x, d') := value v (StatusCode o) d in
         (mkReportsErrorBody (Message o) (Tip o) x, d')) ].

#[export] Instance Unmarshal_ReportsErrorBody : Unmarshal ReportsErrorBody := {
  typeName := "struct";
  value := valueStruct "struct" errFields
}.

Definition reportsErrorFields : list (field ReportsError) :=
  [ mkField "error"
      (fun v o d =>
         let '(x, d') := value v (Err o) d in (mkReportsError x, d')) ].

#[export] Instance Unmarshal_ReportsError : Unmarshal ReportsError := {
  typeName := "reports.ReportsError";
  value := valueStruct "reports.ReportsError" reportsErrorFields
}.

(** [Option] represents optional parameters of [NewClient]: a function that
    updates the client it is given. *)
Definition Option : Type := Client -> Client.

(** [baseURL] makes client testable by configurable URL; a parse error is
    dropped and leaves the [nil] URL. *)
Definition baseURL (rawurl : string) : Option :=
  fun c => mkClient (httpClient c) (apiToken c) (header c) (GoURL.Parse rawurl).

(** [HTTPClient] sets an HTTP client to use when sending requests. *)
Definition HTTPClient (h : option GoHTTP.Client) : Option :=
  fun c => mkClient h (apiToken c) (header c) (url c).

(** [NewClient] returns a new initialized client. *)
Definition NewClient (apiToken : string) (options : list Option) : Client :=
  let url := GoURL.Parse defaultBaseURL in
  let newClient := mkClient (Some GoHTTP.DefaultClient) apiToken ∅ url in
  let newClient :=
    mkClient (httpClient newClient) (Reports.apiToken newClient)
      (GoHTTP.Set_ "Content-type" "application/json" (header newClient))
      (Reports.url newClient) in
  fold_left (fun c option => option c) options newClient.

(** The state the pipeline runs in: the client the methods are called on
    (their pointer receiver) and the requests handed to the transport so
    far, oldest first. *)
Record World := mkWorld {
  self : Client;
  sent : list GoHTTP.Request
}.

Definition setURL (u : option GoURL.URL) (w : World) : World :=
  mkWorld
    (mkClient (httpClient (self w)) (apiToken (self w)) (header (self w)) u)
    (sent w).

(** [decodeJSON]: decode the response body into [out]. *)
Definition decodeJSON {T : Type} `{Unmarshal T} (resp : GoHTTP.Response)
  (out : T) : T * option error :=
  GoHTTP.Decode (GoHTTP.RespBody resp) out.

(** [checkResponse]: the transport's error is passed on; a status outside
    200..299 becomes the [ReportsError] decoded from the body, or the error
    of that decoding; otherwise the response is passed on. *)
Definition checkResponse (resp : option GoHTTP.Response) (err : option error)
  : Outcome (option GoHTTP.Response * option error) :=
  match err with
  | Some e => Returned (None, Some e)
  | None =>
      match resp with
      | None => Panicked nilDeref
      | Some r =>
          if (GoHTTP.StatusCode r <=? 199)%Z || (300 <=? GoHTTP.StatusCode r)%Z
          then
            let reportsError_ := newReportsError in
            match decodeJSON r reportsError_ with
            | (_, Some e) => Returned (None, Some e)
            | (reportsError_, None) =>
                Returned (None, Some (reportsError reportsError_))
            end
          else Returned (Some r, None)
      end
  end.

Definition lift {S A : Type} (o : Outcome A) : M S A := fun s => (o, s).

Section Pipeline.

(** What the HTTP clients answer. *)
Variable network : GoHTTP.Network.

(** [Do] of [http.Client]: a [nil] client panics; otherwise the request is
    handed to the transport and recorded. *)
Definition Do (c : option GoHTTP.Client) (req : GoHTTP.Request)
  : M World (option GoHTTP.Response * option error) :=
  match c with
  | None => panic nilDeref
  | Some h =>
      fun w =>
        (Returned (network h (sent w) req),
         mkWorld (self w) (sent w ++ [req])%list)
  end.

(** [Client.buildURL]: the endpoint is stored as the path of the client's
    URL, and the URL is printed before the encoded parameters. *)
Definition buildURL {P : Type} `{urlEncoder P} (endpoint : string) (params : P)
  : M World string :=
  c <- gets self ;;
  match url c with
  | None => panic nilDeref
  | Some u =>
      let u := GoURL.setPath endpoint u in
      _ <- modify (setURL (Some u)) ;;
      ret (GoURL.String_ u ++ "?" ++ urlEncode params)
  end.

(** [Client.get] *)
Definition get {T : Type} `{Unmarshal T} (ctx : option GoHTTP.Context)
  (url : string) (report : T) : M World (T * option error) :=
  c <- gets self ;;
  match GoHTTP.NewRequest "GET" url with
  | inr err => ret (report, Some err)
  | inl req =>
      let req := GoHTTP.SetBasicAuth (apiToken c) basicAuthPassword req in
      match ctx with
      | None =>
          ret (report, Some (errorString "The provided ctx must be non-nil"))
      | Some ctx =>
          let req := GoHTTP.WithContext ctx req in
          r <- Do (httpClient c) req ;;
          r <- lift (checkResponse (fst r) (snd r)) ;;
          match r with
          | (_, Some err) => ret (report, Some err)
          | (None, None) => panic nilDeref
          | (Some resp, None) =>
              match decodeJSON resp report with
              | (report, Some err) => ret (report, Some err)
              | (report, None) => ret (report, None)
              end
          end
      end
  end.

End Pipeline.

End Reports.

(** ** Package [path] and the time stamps of JSON bodies *)

Module GoPath.

(** The elements of a slash-separated path. *)
Fixpoint splitSlash (s : string) (cur : string) : list string :=
  match s with
  | EmptyString => [cur]
  | String c s' =>
      if Ascii.eqb c "/" then cur :: splitSlash s' ""
      else splitSlash s' (cur ++ String c "")
  end.

(** One step of [path.Clean]: empty and [.] elements are dropped, [..]
    removes the element before it, is dropped at the root, and is kept at
    the start of a relative path.  [acc] is the cleaned path so far, last
    element first. *)
Definition cleanStep (rooted : bool) (acc : list string) (e : string)
  : list string :=
  if String.eqb e "" || String.eqb e "." then acc
  else if String.eqb e ".." then
    match acc with
    | [] => if rooted then [] else [".."]
    | x :: acc' => if String.eqb x ".." then e :: acc else acc'
    end
  else e :: acc.

Fixpoint joinSlash (l : list string) : string :=
  match l with
  | [] => ""
  | [x] => x
  | x :: rest => x ++ "/" ++ joinSlash rest
  end.

(** [path.Clean] *)
Definition Clean (p : string) : string :=
  if String.eqb p "" then "."
  else
    let rooted := GoURL.HasPrefix p "/" in
    let elems := rev (fold_left (cleanStep rooted) (splitSlash p "") []) in
    let body := joinSlash elems in
    if rooted then "/" ++ body
    else if String.eqb body "" then "." else body.

(** [path.Join]: empty elements are ignored and the result is cleaned; no
    element at all gives the empty string. *)
Definition Join (elem : list string) : string :=
  match List.filter nonEmpty elem with
  | [] => ""
  | l => Clean (joinSlash l)
  end.

End GoPath.

Module GoTimeJSON.

Import GoTime GoJSON.

Definition isDigit (c : ascii) : bool :=
  let n := nat_of_ascii c in ((48 <=? n) && (n <=? 57))%nat.

(** Exactly [n] decimal digits at the start of [s]: their value and the
    rest. *)
Fixpoint digitsN (n : nat) (s : string) (acc : Z) : option (Z * string) :=
  match n with
  | O => Some (acc, s)
  | S n' =>
      match s with
      | String c s' =>
          if isDigit c
          then digitsN n' s' (acc * 10 + Z.of_nat (nat_of_ascii c - 48))%Z
          else None
      | EmptyString => None
      end
  end.

(** The byte [c] at the start of [s]: the rest. *)
Definition expect (c : ascii) (s : string) : option string :=
  match s with
  | String c' s' => if Ascii.eqb c c' then Some s' else None
  | EmptyString => None
  end.

(** The digits of a fractional second: nanoseconds read so far, the number
    of digits read, the rest. *)
Fixpoint fraction (s : string) (acc : Z) (n : nat) : Z * nat * string :=
  match s with
  | String c s' =>
      if isDigit c then
        fraction s'
          (if (n <? 9)%nat
           then (acc * 10 + Z.of_nat (nat_of_ascii c - 48))%Z else acc) (S n)
      else (acc, n, s)
  | EmptyString => (acc, n, s)
  end.

Definition isLeap (y : Z) : bool :=
  ((y mod 4 =? 0)%Z && negb (y mod 100 =? 0)%Z) || (y mod 400 =? 0)%Z.

Definition daysIn (m y : Z) : Z :=
  if (m =? 2)%Z then (if isLeap y then 29 else 28)%Z
  else if (m =? 4)%Z || (m =? 6)%Z || (m =? 9)%Z || (m =? 11)%Z then 30%Z
  else 31%Z.

(** The zone at the end of an RFC 3339 time stamp: its offset in seconds. *)
Definition zone (s : string) : option Z :=
  match s with
  | String c rest =>
      if Ascii.eqb c "Z" then
        (if String.eqb rest "" then Some 0%Z else None)
      else if Ascii.eqb c "+" || Ascii.eqb c "-" then
        hh ← digitsN 2 rest 0;
        r ← expect ":" hh.2;
        mm ← digitsN 2 r 0;
        if String.eqb mm.2 "" && (hh.1 <? 24)%Z && (mm.1 <? 60)%Z then
          Some ((if Ascii.eqb c "-" then -1 else 1)
                * (hh.1 * 3600 + mm.1 * 60))%Z
        else None
      else None
  | EmptyString => None
  end.

(** [time.Parse(time.RFC3339, s)] as [Time.UnmarshalJSON] applies it:
    [YYYY-MM-DDTHH:MM:SS], an optional fraction, and [Z] or a numeric
    zone. *)
Definition parseRFC3339 (s : string) : option Time :=
  y ← digitsN 4 s 0;
  r ← expect "-" y.2;
  m ← digitsN 2 r 0;
  r ← expect "-" m.2;
  d ← digitsN 2 r 0;
  r ← expect "T" d.2;
  hh ← digitsN 2 r 0;
  r ← expect ":" hh.2;
  mm ← digitsN 2 r 0;
  r ← expect ":" mm.2;
  ss ← digitsN 2 r 0;
  fr ← (match expect "." ss.2 with
        | Some r' =>
            let '(ns, n, rest) := fraction r' 0 0 in
            if (n =? 0)%nat then None
            else Some ((ns * 10 ^ Z.of_nat (9 - n))%Z, rest)
        | None => Some (0%Z, ss.2)
        end);
  off ← zone fr.2;
  if (1 <=? m.1)%Z && (m.1 <=? 12)%Z && (1 <=? d.1)%Z
     && (d.1 <=? daysIn m.1 y.1)%Z
     && (hh.1 <? 24)%Z && (mm.1 <? 60)%Z && (ss.1 <? 60)%Z
  then
    Some (mkTime
            (daysFromCivil y.1 m.1 d.1 * 86400 + hh.1 * 3600 + mm.1 * 60
             + ss.1 - off)%Z
            fr.1 off)
  else None.

(** [Time.UnmarshalJSON]: [null] is skipped; a string must be an RFC 3339
    time stamp; any error stops the decoding. *)
#[export] Instance Unmarshal_Time : Unmarshal Time := {
  typeName := "time.Time";
  value v out d :=
    match v with
    | JNull => (out, d)
    | JString s =>
        match parseRFC3339 s with
        | Some t => (t, d)
        | None => (out, stop (timeParseError s) d)
        end
    | _ =>
        (out,
         stop (errorString "Time.UnmarshalJSON: input is not a JSON string") d)
    end
}.

End GoTimeJSON.

(** ** Package [toggl] (track): the tag methods *)

Module Track.

Import GoTime GoJSON GoTimeJSON.
Local Open Scope go_scope.

(** [Tag] represents the properties of a tag; every field is a pointer. *)
Record Tag := mkTag {
  ID : option Z;               (* `json:"id,omitempty"` *)
  WorkspaceID : option Z;      (* `json:"workspace_id,omitempty"` *)
  Name : option string;        (* `json:"name,omitempty"` *)
  At : option Time;            (* `json:"at,omitempty"` *)
  DeletedAt : option Time      (* `json:"deleted_at,omitempty"` *)
}.

Definition zeroTag : Tag := mkTag None None None None None.

(** [CreateTagRequestBody] represents a request body of [CreateTag]. *)
Record CreateTagRequestBody := mkCreateTagRequestBody {
  createName : option string;         (* Name, `json:"name,omitempty"` *)
  createWorkspaceID : option Z        (* WorkspaceID *)
}.

(** [UpdateTagRequestBody] represents a request body of [UpdateTag]. *)
Record UpdateTagRequestBody := mkUpdateTagRequestBody {
  updateName : option string;         (* Name, `json:"name,omitempty"` *)
  updateWorkspaceID : option Z        (* WorkspaceID *)
}.

(** How [encoding/json] decodes into a [Tag], from its field tags. *)
Definition tagFields : list (field Tag) :=
  [ mkField "id"
      (fun v o d =>
         let '(x, d') := valuePtr 0%Z v (ID o) d in
         (mkTag x (WorkspaceID o) (Name o) (At o) (DeletedAt o), d'));
    mkField "workspace_id"
      (fun v o d =>
         let '(x, d') := valuePtr 0%Z v (WorkspaceID o) d in
         (mkTag (ID o) x (Name o) (At o) (DeletedAt o), d'));
    mkField "name"
      (fun v o d =>
         let '(x, d') := valuePtr "" v (Name o) d in
         (mkTag (ID o) (WorkspaceID o) x (At o) (DeletedAt o), d'));
    mkField "at"
      (fun v o d =>
         let '(x, d') := valuePtr zeroTime v (At o) d in
         (mkTag (ID o) (WorkspaceID o) (Name o) x (DeletedAt o), d'));
    mkField "deleted_at"
      (fun v o d =>
         let '(x, d') := valuePtr zeroTime v (DeletedAt o) d in
         (mkTag (ID o) (WorkspaceID o) (Name o) (At o) x, d')) ].

#[export] Instance Unmarshal_Tag : Unmarshal Tag := {
  typeName := "toggl.Tag";
  value := valueStruct "toggl.Tag" tagFields
}.

(** [*Tag] *)
#[export] Instance Unmarshal_TagPtr : Unmarshal (option Tag) := {
  typeName := "*toggl.Tag";
  value := valuePtr zeroTag
}.

(** [[]*Tag]; [None] is the [nil] slice. *)
#[export] Instance Unmarshal_Tags : Unmarshal (option (list (option Tag))) := {
  typeName := "[]*toggl.Tag";
  value := valueSlice None "[]*toggl.Tag"
}.

Section Tags.

(** The parts of package [toggl] that are not among the sources: the state
    the client works on, the path constant, the type of query parameters,
    and the three request helpers of the client.  Each helper is given the
    context, the path, the parameters or the request body, and the output
    it decodes into; it returns the output and the error. *)
Variable W : Type.
Variable workspacesPath : string.
Variable Query : Type.
Variable httpGet :
  forall (T : Type) `{Unmarshal T},
    option GoHTTP.Context -> string -> option Query -> T ->
    M W (T * option error).
Variable httpPost :
  forall (B T : Type) `{Unmarshal T},
    option GoHTTP.Context -> string -> option B -> T ->
    M W (T * option error).
Variable httpPut :
  forall (B T : Type) `{Unmarshal T},
    option GoHTTP.Context -> string -> option B -> T ->
    M W (T * option error).

(** [GetTags] lists workspace tags. *)
Definition GetTags (ctx : option GoHTTP.Context) (workspaceID : Z)
  : M W (option (list (option Tag)) * option error) :=
  let tags : option (list (option Tag)) := None in
  let apiSpecificPath :=
    GoPath.Join [workspacesPath; Itoa workspaceID; "tags"] in
  r <- httpGet _ ctx apiSpecificPath None tags ;;
  let '(tags, err) := r in
  match err with
  | Some _ => ret (None, Wrap err "")
  | None => ret (tags, None)
  end.

(** [CreateTag] creates workspace tags. *)
Definition CreateTag (ctx : option GoHTTP.Context) (workspaceID : Z)
  (reqBody : option CreateTagRequestBody) : M W (option Tag * option error) :=
  let tag : option Tag := None in
  let apiSpecificPath :=
    GoPath.Join [workspacesPath; Itoa workspaceID; "tags"] in
  r <- httpPost _ _ ctx apiSpecificPath reqBody tag ;;
  let '(tag, err) := r in
  match err with
  | Some _ => ret (None, Wrap err "")
  | None => ret (tag, None)
  end.

(** [UpdateTag] updates workspace tags. *)
Definition UpdateTag (ctx : option GoHTTP.Context) (workspaceID tagID : Z)
  (reqBody : option UpdateTagRequestBody) : M W (option Tag * option error) :=
  let tag : option Tag := None in
  let apiSpecificPath :=
    GoPath.Join [workspacesPath; Itoa workspaceID; "tags"; Itoa tagID] in
  r <- httpPut _ _ ctx apiSpecificPath reqBody tag ;;
  let '(tag, err) := r in
  match err with
  | Some _ => ret (None, Wrap err "")
  | None => ret (tag, None)
  end.

(** [DeleteTag] deletes workspace tags. *)
Definition DeleteTag (ctx : option GoHTTP.Context) (workspaceID tagID : Z)
  : M W (option error) :=
  ret None.

End Tags.

End Track.

(** ** The report structure of the test suite *)

Module ReportsTest.

Import GoJSON.

(** One element of [detailedReport.Data]. *)
Record detailedReportRow := mkRow {
  User : string;           (* `json:"user"` *)
  Project : string;        (* `json:"project"` *)
  Description : string     (* `json:"description"` *)
}.

(** [detailedReport] of [TestGetDetailed]; [None] is the [nil] slice. *)
Record detailedReport := mkDetailedReport {
  TotalCount : Z;                            (* `json:"total_count"` *)
  PerPage : Z;                               (* `json:"per_page"` *)
  Data : option (list detailedReportRow)     (* `json:"data"` *)
}.

(** The zero value that [new(detailedReport)] points to. *)
Definition newDetailedReport : detailedReport := mkDetailedReport 0 0 None.

Definition rowFields : list (field detailedReportRow) :=
  [ mkField "user"
      (fun v o d =>
         let '(x, d') := value v (User o) d in
         (mkRow x (Project o) (Description o), d'));
    mkField "project"
      (fun v o d =>
         let '(x, d') := value v (Project o) d in
         (mkRow (User o) x (Description o), d'));
    mkField "description"
      (fun v o d =>
         let '(x, d') := value v (Description o) d in
         (mkRow (User o) (Project o) x, d')) ].

#[export] Instance Unmarshal_row : Unmarshal detailedReportRow := {
  typeName := "struct";
  value := valueStruct "struct" rowFields
}.

#[export] Instance Unmarshal_rows
  : Unmarshal (option (list detailedReportRow)) := {
  typeName := "[]struct";
  value := valueSlice (mkRow "" "" "") "[]struct"
}.

Definition detailedReportFields : list (field detailedReport) :=
  [ mkField "total_count"
      (fun v o d =>
         let '(x, d') := value v (TotalCount o) d in
         (mkDetailedReport x (PerPage o) (Data o), d'));
    mkField "per_page"
      (fun v o d =>
         let '(x, d') := value v (PerPage o) d in
         (mkDetailedReport (TotalCount o) x (Data o), d'));
    mkField "data"
      (fun v o d =>
         let '(x, d') := value v (Data o) d in
         (mkDetailedReport (TotalCount o) (PerPage o) x, d')) ].

#[export] Instance Unmarshal_detailedReport : Unmarshal detailedReport := {
  typeName := "reports_test.detailedReport";
  value := valueStruct "reports_test.detailedReport" detailedReportFields
}.

Definition apiToken : string := "api_token".

(** A server that answers every request with the same status and body, as
    the mock server of the tests does. *)
Definition mockServer (status : Z) (body : GoHTTP.Body) : GoHTTP.Network :=
  fun _ _ _ => (Some (GoHTTP.mkResponse status body), None).

(** The world of a freshly made client that has sent nothing. *)
Definition freshWorld : Reports.World :=
  Reports.mkWorld (Reports.NewClient apiToken []) [].

(** The body of a [ReportsError]: an object with the member [error]. *)
Definition errorBody (message tip : string) (code : Z) : GoHTTP.Body :=
  GoHTTP.BodyJSON
    (JObject
       [("error",
         JObject [("message", JString message); ("tip", JString tip);
                  ("code", JInt code)])]).

(** A URL of the detailed report, as [buildURL] prints it. *)
Definition detailsURL : string :=
  "https://toggl.com/reports/api/v2/details?user_agent=a&workspace_id=1".

(** A URL with a line feed in it, which [url.Parse] refuses. *)
Definition brokenURL : string :=
  "https://toggl.com/reports" ++ String (ascii_of_nat 10) "".

(** A body that is a report of one page. *)
Definition reportBody : GoHTTP.Body :=
  GoHTTP.BodyJSON (JObject [("total_count", JInt 1); ("per_page", JInt 50)]).

(** A body whose [total_count] is a number and whose [per_page] is not. *)
Definition mismatchBody : GoHTTP.Body :=
  GoHTTP.BodyJSON
    (JObject [("total_count", JInt 3); ("per_page", JString "fifty")]).

(** The 429 answer of the API: an HTML page. *)
Definition tooManyRequests : GoHTTP.Body :=
  GoHTTP.BodyOther "<html>Too Many Requests</html>".

(** The 400 answer of the tags endpoint: a bare JSON string. *)
Definition badRequest : GoHTTP.Body :=
  GoHTTP.BodyJSON (JString "Missing or invalid workspace_id").

(** Parameters that are encoded already. *)
#[export] Instance urlEncoder_string : Reports.urlEncoder string :=
  fun encoded => encoded.

End ReportsTest.

(** ** What the properties speak about *)

Module Props.

Import GoTime GoJSON Reports.

(** The optional parameters: the key of each, and whether its field is
    non-zero (a string other than the empty one, a time other than the zero
    time, a boolean that is true). *)
Definition optionalFields (p : StandardRequestParameters)
  : list (string * bool) :=
  [ ("since", negb (IsZero (Since p)));
    ("until", negb (IsZero (Until p)));
    ("billable", nonEmpty (Billable p));
    ("client_ids", nonEmpty (ClientIds p));
    ("project_ids", nonEmpty (ProjectIds p));
    ("user_ids", nonEmpty (UserIds p));
    ("members_of_group_ids", nonEmpty (MembersOfGroupIds p));
    ("or_members_of_group_ids", nonEmpty (OrMembersOfGroupIds p));
    ("tag_ids", nonEmpty (TagIds p));
    ("task_ids", nonEmpty (TaskIds p));
    ("time_entry_ids", nonEmpty (TimeEntryIds p));
    ("description", nonEmpty (Description p));
    ("without_description", WithoutDescription p);
    ("order_field", nonEmpty (OrderField p));
    ("order_desc", OrderDesc p);
    ("distinct_rates", DistinctRates p);
    ("rounding", Rounding p);
    ("display_hours", nonEmpty (DisplayHours p)) ].

(** All parameters: the two required ones before the optional ones. *)
Definition allFields (p : StandardRequestParameters) : list (string * bool) :=
  ("user_agent", nonEmpty (UserAgent p))
  :: ("workspace_id", nonEmpty (WorkSpaceId p))
  :: optionalFields p.

(** The encoded parameters contain the key. *)
Definition hasKey (p : StandardRequestParameters) (key : string) : Prop :=
  is_Some (values p !! key).

(** A status code in the range 200..299. *)
Definition is2xx (status : Z) : bool :=
  (200 <=? status)%Z && (status <=? 299)%Z.

(** The request [get] hands to the transport for a URL and a context, when
    the URL is accepted. *)
Definition requestOf (c : Client) (ctx : GoHTTP.Context) (url : string)
  : option GoHTTP.Request :=
  match GoHTTP.NewRequest "GET" url with
  | inl req =>
      Some (GoHTTP.WithContext ctx
              (GoHTTP.SetBasicAuth (apiToken c) basicAuthPassword req))
  | inr _ => None
  end.

(** In the world [w], a call of [get] with this context and URL receives
    the response [resp] from the transport. *)
Definition receives (network : GoHTTP.Network) (w : World)
  (ctx : option GoHTTP.Context) (url : string) (resp : GoHTTP.Response)
  : Prop :=
  exists ctx' req h,
    ctx = Some ctx'
    /\ requestOf (self w) ctx' url = Some req
    /\ httpClient (self w) = Some h
    /\ network h (sent w) req = (Some resp, None).

(** The error [checkResponse] makes of a response outside 200..299. *)
Definition errorOf (resp : GoHTTP.Response) : error :=
  match decodeJSON resp newReportsError with
  | (_, Some e) => e
  | (re, None) => reportsError re
  end.

(** The number of requests handed to the transport by a computation started
    in [w]. *)
Definition roundTrips {A : Type} (m : M World A) (w : World) : nat :=
  (length (sent (snd (m w))) - length (sent w))%nat.

(** A decoder state is sound when the errors it holds are errors of
    [encoding/json]. *)
Definition sound (d : decodeState) : Prop :=
  forall e, stopped d = Some e \/ savedError d = Some e -> isJSONError e = true.

(** A way of storing a value keeps states sound. *)
Definition keepsSound {T : Type}
  (f : json -> T -> decodeState -> T * decodeState) : Prop :=
  forall v out d, sound d -> sound (snd (f v out d)).

End Props.

(** ** The request helper of the track client *)

Module TrackPipeline.

Import GoJSON Reports.
Local Open Scope go_scope.

(** Modelled from the spec: [Client.httpGet] of package [toggl] is not among
    the sources.  The spec gives its contract: given an endpoint path, a
    parameter object and an output pointer, perform one HTTP round trip and
    either populate the output or return a typed error; attach basic-auth
    credentials; a nil context yields the context-required error without a
    network call; transport failures are surfaced directly; a 2xx response
    decodes the body into the output, anything else decodes the body into
    the error structure (message, tip, status code) and returns it.  The
    client is the one of the data model: base URL, auth token, headers,
    transport. *)
Definition httpGet (network : GoHTTP.Network) (T : Type) `{Unmarshal T}
  (ctx : option GoHTTP.Context) (endpoint : string) (query : option string)
  (out : T) : M World (T * option error) :=
  match ctx with
  | None => ret (out, Some (errorString "context required"))
  | Some ctx =>
      c <- gets self ;;
      match url c with
      | None => panic nilDeref
      | Some u =>
          let u :=
            GoURL.mkURL (GoURL.Scheme u) (GoURL.Opaque u) (GoURL.Host u)
              endpoint (default "" query) (GoURL.Fragment u) in
          let req :=
            GoHTTP.mkRequest "GET" u (Some (apiToken c, basicAuthPassword))
              ctx in
          r <- Do network (httpClient c) req ;;
          match r with
          | (_, Some err) => ret (out, Some err)
          | (None, None) => panic nilDeref
          | (Some resp, None) =>
              if Props.is2xx (GoHTTP.StatusCode resp)
              then ret (decodeJSON resp out)
              else ret (out, Some (Props.errorOf resp))
          end
      end
  end.

(** Modelled from the spec: the fixture [testdata/tags/get_tags_200_ok.json]
    is not among the sources.  It is the JSON array that holds the one tag
    [TestGetTags] expects [GetTags] to decode from it. *)
Definition get_tags_200_ok : json :=
  JArray
    [ JObject
        [ ("id", JInt 12345678);
          ("workspace_id", JInt 1234567);
          ("name", JString "toggl-go");
          ("at", JString "2020-01-02T03:04:05.678901Z") ] ].

(** The tag [TestGetTags] expects. *)
Definition expectedTag : Track.Tag :=
  Track.mkTag (Some 12345678%Z) (Some 1234567%Z) (Some "toggl-go")
    (Some (GoTime.DateUTC 2020 1 2 3 4 5 678901000)) None.

(** [GetTags] of a client whose request helper is [httpGet]; the path
    constant [workspacesPath], which is not among the sources either, is a
    parameter. *)
Definition GetTags (network : GoHTTP.Network) (workspacesPath : string)
  (ctx : option GoHTTP.Context) (workspaceID : Z)
  : M World (option (list (option Track.Tag)) * option error) :=
  Track.GetTags World workspacesPath string (httpGet network) ctx workspaceID.

End TrackPipeline.

(** ** What the further properties speak about *)

Module MoreProps.

Import GoTime GoJSON Reports Props.

(** Every parameter in the order [values] treats it: its key, whether it is
    encoded, and the value it is encoded with. *)
Definition valueTable (p : StandardRequestParameters)
  : list (string * (bool * string)) :=
  [ ("user_agent", (true, UserAgent p));
    ("workspace_id", (true, WorkSpaceId p));
    ("since", (negb (IsZero (Since p)), FormatDate (Since p)));
    ("until", (negb (IsZero (Until p)), FormatDate (Until p)));
    ("billable", (nonEmpty (Billable p), Billable p));
    ("client_ids", (nonEmpty (ClientIds p), ClientIds p));
    ("project_ids", (nonEmpty (ProjectIds p), ProjectIds p));
    ("user_ids", (nonEmpty (UserIds p), UserIds p));
    ("members_of_group_ids",
     (nonEmpty (MembersOfGroupIds p), MembersOfGroupIds p));
    ("or_members_of_group_ids",
     (nonEmpty (OrMembersOfGroupIds p), OrMembersOfGroupIds p));
    ("tag_ids", (nonEmpty (TagIds p), TagIds p));
    ("task_ids", (nonEmpty (TaskIds p), TaskIds p));
    ("time_entry_ids", (nonEmpty (TimeEntryIds p), TimeEntryIds p));
    ("description", (nonEmpty (Description p), Description p));
    ("without_description", (WithoutDescription p, "true"));
    ("order_field", (nonEmpty (OrderField p), OrderField p));
    ("order_desc", (OrderDesc p, "on"));
    ("distinct_rates", (DistinctRates p, "on"));
    ("rounding", (Rounding p, "on"));
    ("display_hours", (nonEmpty (DisplayHours p), DisplayHours p)) ].

(** The entry of a key in a table. *)
Fixpoint assoc {A : Type} (key : string) (table : list (string * A))
  : option A :=
  match table with
  | [] => None
  | (k, a) :: rest => if String.eqb k key then Some a else assoc key rest
  end.

(** What a key holds according to the table: the one value of an encoded
    parameter, nothing otherwise. *)
Definition tableValues (p : StandardRequestParameters) (key : string)
  : option (list string) :=
  match assoc key (valueTable p) with
  | Some (true, v) => Some [v]
  | _ => None
  end.

(** The number of optional parameters that are non-zero. *)
Definition nonZeroCount (p : StandardRequestParameters) : nat :=
  list_sum
    (map (fun kb : string * bool => Nat.b2n (snd kb)) (optionalFields p)).



(** A network whose answers do not depend on the requests sent before. *)
Definition memoryless (network : GoHTTP.Network) : Prop :=
  forall h before before' req,
    network h before req = network h before' req.

(** A transport that fails on every request. *)
Definition refusing : GoHTTP.Network :=
  fun _ _ _ => (None, Some (transportError "connection refused")).




(** No member of the object is named [error], in whatever case. *)
Definition noErrorMember (members : list (string * json)) : Prop :=
  Forall (fun kv => GoURL.ToLower (fst kv) <> "error") members.

(** A request helper that fails on every request, for any request body and
    output. *)
Definition failingHelper (B T : Type) (U : Unmarshal T)
  (ctx : option GoHTTP.Context) (path : string) (reqBody : option B)
  (out : T) : M World (T * option error) :=
  ret (out, Some (transportError "connection refused")).

(** An option made by [baseURL] or by [HTTPClient]. *)
Definition standardOption (o : Option) : Prop :=
  (exists rawurl, o = baseURL rawurl) \/ (exists h, o = HTTPClient h).

End MoreProps.

(** * Properties *)

(** ** Auxiliary facts *)


Section ValuesFacts.

Import GoURL.

Lemma is_Some_Add (key value : string) (v : Values) (k : string) :
  is_Some (Add key value v !! k) <-> key = k \/ is_Some (v !! k).
Proof.
  unfold Add. destruct (decide (key = k)) as [->|Hne].
  - rewrite lookup_insert_eq. split; eauto.
  - rewrite lookup_insert_ne by done. split; [eauto | intros [?|?]; done].
Qed.

Lemma is_Some_addIf (c : bool) (key value : string) (v : Values) (k : string) :
  is_Some (Reports.addIf c key value v !! k)
  <-> (key, c) = (k, true) \/ is_Some (v !! k).
Proof.
  unfold Reports.addIf. destruct c.
  - rewrite is_Some_Add. split; intros [H|H]; auto; left; congruence.
  - split; [auto | intros [H|H]; [congruence | done]].
Qed.

(** A key that is added holds the value added last. *)
Lemma Get_Add_fresh (key value : string) (v : Values) :
  v !! key = None -> Get key (Add key value v) = value.
Proof.
  intros H. unfold Get, Add. rewrite lookup_insert_eq, H. reflexivity.
Qed.

End ValuesFacts.

Section DecoderFacts.

Import GoJSON Props Reports.

Lemma sound_init : sound initState.
Proof. intros e [H|H]; discriminate. Qed.

Lemma sound_saveError (value type : string) (d : decodeState) :
  sound d -> sound (saveError (UnmarshalTypeError value type) d).
Proof.
  intros Hd e. unfold saveError.
  destruct (savedError d) as [e0|] eqn:Hs.
  - intros [H|H]; apply Hd; [left; exact H | right; congruence].
  - simpl. intros [H|H]; [apply Hd; left; exact H |].
    injection H as <-. reflexivity.
Qed.

Lemma keepsSound_string : keepsSound (value (T := string)).
Proof.
  intros v out d Hd. destruct v; simpl; auto using sound_saveError.
Qed.

Lemma keepsSound_int : keepsSound (value (T := Z)).
Proof.
  intros v out d Hd. destruct v; simpl; auto using sound_saveError.
  destruct (inInt n); simpl; auto using sound_saveError.
Qed.

Lemma keepsSound_members {T : Type} (fields : list (field T)) :
  Forall (fun f => keepsSound (store f)) fields ->
  forall members out d,
    sound d -> sound (snd (valueMembers fields members out d)).
Proof.
  intros Hfields members.
  induction members as [|[key v] rest IH]; intros out d Hd; simpl; [exact Hd|].
  assert (Hstep :
    sound (snd (match findField fields key with
                | Some f => store f v out d
                | None => (out, d)
                end))).
  { destruct (findField fields key) as [f|] eqn:Hf; [|exact Hd].
    assert (Hin : In f fields).
    { unfold findField in Hf.
      destruct (find _ fields) as [f'|] eqn:Hf1.
      - injection Hf as <-. eapply find_some; eauto.
      - eapply find_some; eauto. }
    rewrite Forall_forall in Hfields.
    apply (Hfields f); [apply list_elem_of_In; exact Hin | exact Hd]. }
  destruct (match findField fields key with
            | Some f => store f v out d
            | None => (out, d)
            end) as [out' d'].
  simpl in Hstep. destruct (stopped d'); [exact Hstep | apply IH; exact Hstep].
Qed.

Lemma keepsSound_struct {T : Type} (name : string) (fields : list (field T)) :
  Forall (fun f => keepsSound (store f)) fields ->
  keepsSound (valueStruct name fields).
Proof.
  intros Hfields v out d Hd.
  destruct v; simpl; auto using sound_saveError.
  apply keepsSound_members; assumption.
Qed.

(** Storing through a field that rebuilds the record keeps what the store
    of the component keeps. *)
Lemma keepsSound_component {T U : Type} `{Unmarshal U} (proj : T -> U)
  (build : U -> T -> T) :
  keepsSound (value (T := U)) ->
  keepsSound
    (fun v o d => let '(x, d') := value v (proj o) d in (build x o, d')).
Proof.
  intros HU v o d Hd. specialize (HU v (proj o) d Hd).
  destruct (value v (proj o) d) as [x d']. exact HU.
Qed.

Lemma keepsSound_ReportsErrorBody : keepsSound (value (T := ReportsErrorBody)).
Proof.
  apply keepsSound_struct. unfold Reports.errFields.
  repeat constructor.
  - apply (keepsSound_component Message
             (fun x o => mkReportsErrorBody x (Tip o) (StatusCode o))
             keepsSound_string).
  - apply (keepsSound_component Tip
             (fun x o => mkReportsErrorBody (Message o) x (StatusCode o))
             keepsSound_string).
  - apply (keepsSound_component StatusCode
             (fun x o => mkReportsErrorBody (Message o) (Tip o) x)
             keepsSound_int).
Qed.

Lemma keepsSound_ReportsError : keepsSound (value (T := ReportsError)).
Proof.
  apply keepsSound_struct. unfold Reports.reportsErrorFields.
  repeat constructor.
  apply (keepsSound_component Err (fun x _ => mkReportsError x)
           keepsSound_ReportsErrorBody).
Qed.

(** The error of decoding a body into a [ReportsError] is an error of
    [encoding/json]. *)
Lemma decodeJSON_ReportsError_error (resp : GoHTTP.Response)
  (out : ReportsError) (e : error) :
  snd (Reports.decodeJSON resp out) = Some e -> isJSONError e = true.
Proof.
  unfold Reports.decodeJSON, GoHTTP.Decode.
  destruct (GoHTTP.RespBody resp) as [v|raw]; simpl.
  - unfold unmarshal.
    pose proof (keepsSound_ReportsError v out initState sound_init) as Hs.
    destruct (value v out initState) as [out' d]. simpl in *.
    intros He. apply Hs.
    destruct (stopped d); [left | right]; exact He.
  - intros He. injection He as <-. reflexivity.
Qed.

End DecoderFacts.

Section PipelineFacts.

Import GoJSON Reports Props.

Variable network : GoHTTP.Network.

(** The test of [checkResponse] is the negation of [is2xx]. *)
Lemma outside_2xx (status : Z) :
  ((status <=? 199)%Z || (300 <=? status)%Z) = negb (is2xx status).
Proof.
  unfold is2xx.
  destruct (Z.leb_spec status 199), (Z.leb_spec 300 status),
    (Z.leb_spec 200 status), (Z.leb_spec status 299); simpl;
    try reflexivity; lia.
Qed.

Lemma checkResponse_response (resp : GoHTTP.Response) :
  checkResponse (Some resp) None
  = Returned (if is2xx (GoHTTP.StatusCode resp)
              then (Some resp, None) else (None, Some (errorOf resp))).
Proof.
  unfold checkResponse, errorOf. rewrite outside_2xx.
  destruct (is2xx (GoHTTP.StatusCode resp)); simpl; [reflexivity |].
  destruct (decodeJSON resp newReportsError) as [re [e|]]; reflexivity.
Qed.


(** [get] when the transport delivers a response. *)
Lemma get_receives {T : Type} `{Unmarshal T} (ctx : option GoHTTP.Context)
  (url : string) (report : T) (w : World) (resp : GoHTTP.Response) :
  receives network w ctx url resp ->
  exists req,
    get network ctx url report w
    = (Returned (if is2xx (GoHTTP.StatusCode resp)
                 then decodeJSON resp report
                 else (report, Some (errorOf resp))),
       mkWorld (self w) (sent w ++ [req])).
Proof.
  intros (ctx' & req & h & -> & Hreq & Hh & Hnet).
  exists req. unfold requestOf in Hreq.
  unfold get, bind, gets, ret.
  destruct (GoHTTP.NewRequest "GET" url) as [req0|err]; [|discriminate].
  injection Hreq as <-.
  unfold Do. rewrite Hh. cbn [fst snd]. rewrite Hnet. cbn [fst snd].
  unfold lift. rewrite checkResponse_response.
  destruct (is2xx (GoHTTP.StatusCode resp)); [|reflexivity].
  destruct (decodeJSON resp report) as [out' [e|]]; reflexivity.
Qed.

(** Whatever [get] is given, it leaves the client as it is and hands at
    most one request to the transport. *)
Lemma get_world {T : Type} `{Unmarshal T} (ctx : option GoHTTP.Context)
  (url : string) (report : T) (w : World) :
  self (snd (get network ctx url report w)) = self w
  /\ (sent (snd (get network ctx url report w)) = sent w
      \/ exists req,
           sent (snd (get network ctx url report w)) = (sent w ++ [req])%list).
Proof.
  unfold get, bind, gets, ret, panic.
  destruct (GoHTTP.NewRequest "GET" url) as [req0|err]; [|simpl; auto].
  destruct ctx as [ctx'|]; [|simpl; auto].
  unfold Do, panic. destruct (httpClient (self w)) as [h|]; [|simpl; auto].
  cbn [fst snd].
  destruct (network h (sent w) _) as [resp err] eqn:Hnet. cbn [fst snd].
  unfold lift.
  destruct (checkResponse resp err) as [[[r|] [e|]]|msg];
    cbn [fst snd self sent];
    try destruct (decodeJSON r report) as [out' [e'|]];
    cbn [fst snd self sent];
    (split; [reflexivity | right; eexists; reflexivity]).
Qed.

End PipelineFacts.

Module Claims.

Import GoTime GoJSON Reports Props ReportsTest.

(** *** C1: which keys the encoder writes *)

(** C1, as amended.  In the parameters [values] encodes, the keys
    [user_agent] and [workspace_id] are always present, whatever their
    fields hold; every other key is present if and only if it is the key of
    an optional field that is non-zero (a string that is not empty, a time
    that is not the zero time, a boolean that is true). *)
Theorem values_keys (p : StandardRequestParameters) (key : string) :
  hasKey p key
  <-> key = "user_agent" \/ key = "workspace_id"
      \/ In (key, true) (optionalFields p).
Proof.
  unfold hasKey, optionalFields, values.
  repeat rewrite is_Some_addIf.
  repeat rewrite is_Some_Add.
  rewrite lookup_empty. simpl In.
  assert (E : is_Some (@None (list string)) <-> False).
  { split; [intros [x Hx]; discriminate | tauto]. }
  assert (H1 : "user_agent" = key <-> key = "user_agent")
    by (split; congruence).
  assert (H2 : "workspace_id" = key <-> key = "workspace_id")
    by (split; congruence).
  rewrite E, H1, H2. tauto.
Qed.

(** C1 as stated fails: for the zero value of the parameters the field
    [UserAgent] is empty, it is listed with [false] among the fields, and
    yet the key [user_agent] is encoded (with the empty string as its
    value). *)
Lemma values_keys_counterexample :
  UserAgent zeroParameters = ""
  /\ In ("user_agent", false) (allFields zeroParameters)
  /\ hasKey zeroParameters "user_agent"
  /\ values zeroParameters !! "user_agent" = Some [""].
Proof.
  split; [reflexivity|]. split; [left; reflexivity|].
  assert (E : values zeroParameters !! "user_agent" = Some [""])
    by (vm_compute; reflexivity).
  split; [unfold hasKey; rewrite E; eauto | exact E].
Qed.

(** *** C2: the branch on the status code *)

(** With a context, an accepted URL and a client whose transport answers,
    [get] receives the answer. *)
Lemma mockServer_receives (status : Z) (body : GoHTTP.Body) :
  receives (mockServer status body) freshWorld (Some GoHTTP.Background)
    detailsURL (GoHTTP.mkResponse status body).
Proof.
  exists GoHTTP.Background. eexists. exists GoHTTP.DefaultClient.
  split; [reflexivity|]. split; [vm_compute; reflexivity|].
  split; reflexivity.
Qed.

(** C2, as amended.  For every response the pipeline receives: if the
    status is in 200..299, the body is decoded into the caller's output and
    [get] returns the decoder's error, which is [nil] exactly when the
    decoding succeeds; for every other status the body is decoded into a
    [ReportsError], the output is left alone, and that [ReportsError] is
    returned when its decoding succeeds. *)
Theorem get_branches_on_status {T : Type} `{Unmarshal T}
  (network : GoHTTP.Network) (ctx : option GoHTTP.Context) (url : string)
  (report : T) (w : World) (resp : GoHTTP.Response) :
  receives network w ctx url resp ->
  (is2xx (GoHTTP.StatusCode resp) = true ->
   fst (get network ctx url report w) = Returned (decodeJSON resp report))
  /\ (is2xx (GoHTTP.StatusCode resp) = false ->
      forall re : ReportsError,
        decodeJSON resp newReportsError = (re, None) ->
        fst (get network ctx url report w)
        = Returned (report, Some (reportsError re))).
Proof.
  intros Hrec.
  destruct (get_receives network ctx url report w resp Hrec) as [req Hget].
  rewrite Hget. cbn [fst]. split.
  - intros ->. reflexivity.
  - intros -> re Hre. unfold errorOf. rewrite Hre. reflexivity.
Qed.

(** A 200 answer whose body is a report, and the 401 answer of the API. *)
Lemma get_branches_on_status_witness :
  receives (mockServer 200 reportBody) freshWorld (Some GoHTTP.Background)
    detailsURL (GoHTTP.mkResponse 200 reportBody)
  /\ fst (get (mockServer 200 reportBody) (Some GoHTTP.Background)
            detailsURL newDetailedReport freshWorld)
     = Returned (mkDetailedReport 1 50 None, None)
  /\ fst (get (mockServer 401 (errorBody "api token missing" "tip" 401))
            (Some GoHTTP.Background) detailsURL newDetailedReport freshWorld)
     = Returned
         (newDetailedReport,
          Some (reportsError
                  (mkReportsError
                     (mkReportsErrorBody "api token missing" "tip" 401)))).
Proof.
  split; [apply mockServer_receives|]. split.
  - exact (proj1 (get_branches_on_status _ _ _ newDetailedReport _ _
                    (mockServer_receives 200 reportBody)) eq_refl).
  - exact (proj2 (get_branches_on_status _ _ _ newDetailedReport _ _
                    (mockServer_receives 401
                       (errorBody "api token missing" "tip" 401)))
             eq_refl _ eq_refl).
Defined.

(** C2 as stated fails: a 200 answer with an empty body makes [get] return
    the decoder's error, not [nil]. *)
Lemma get_branches_on_status_counterexample :
  is2xx 200 = true
  /\ fst (get (mockServer 200 (GoHTTP.BodyOther ""))
            (Some GoHTTP.Background) detailsURL newDetailedReport freshWorld)
     = Returned (newDetailedReport, Some (SyntaxError "EOF")).
Proof. split; vm_compute; reflexivity. Qed.

(** *** C3: the status code of the typed error *)

(** C3, as amended.  For every answer outside 200..299 whose body is an
    error object, the typed error returned to the caller carries the
    message, the tip and the status code that the body holds under
    [message], [tip] and [code]; the status code of the error is the one
    written in the body, whatever the HTTP status of the answer is. *)
Theorem error_status_from_body {T : Type} `{Unmarshal T}
  (network : GoHTTP.Network) (ctx : option GoHTTP.Context) (url : string)
  (report : T) (w : World) (status : Z) (message tip : string) (code : Z) :
  receives network w ctx url
    (GoHTTP.mkResponse status (errorBody message tip code)) ->
  is2xx status = false ->
  inInt code = true ->
  fst (get network ctx url report w)
  = Returned
      (report,
       Some (reportsError
               (mkReportsError (mkReportsErrorBody message tip code)))).
Proof.
  intros Hrec Hstatus Hcode.
  destruct (get_receives network ctx url report w _ Hrec) as [req Hget].
  rewrite Hget. cbn [fst GoHTTP.StatusCode]. rewrite Hstatus.
  unfold errorOf, decodeJSON, GoHTTP.Decode, errorBody, unmarshal.
  cbn. rewrite Hcode. reflexivity.
Qed.

Lemma error_status_from_body_witness :
  receives (mockServer 401 (errorBody "api token missing" "tip" 401))
    freshWorld (Some GoHTTP.Background) detailsURL
    (GoHTTP.mkResponse 401 (errorBody "api token missing" "tip" 401))
  /\ is2xx 401 = false
  /\ inInt 401 = true
  /\ fst (get (mockServer 401 (errorBody "api token missing" "tip" 401))
            (Some GoHTTP.Background) detailsURL newDetailedReport freshWorld)
     = Returned
         (newDetailedReport,
          Some (reportsError
                  (mkReportsError
                     (mkReportsErrorBody "api token missing" "tip" 401)))).
Proof.
  split; [apply mockServer_receives|].
  split; [reflexivity|]. split; [reflexivity|].
  exact (error_status_from_body _ _ _ newDetailedReport _ _ _ _ _
           (mockServer_receives 401 (errorBody "api token missing" "tip" 401))
           eq_refl eq_refl).
Defined.

(** C3 as stated fails: an answer with HTTP status 404 whose body says
    [code: 500] gives a typed error whose status code is 500. *)
Lemma error_status_from_body_counterexample :
  exists re : ReportsError,
    fst (get (mockServer 404 (errorBody "Not Found" "tip" 500))
           (Some GoHTTP.Background) detailsURL newDetailedReport freshWorld)
    = Returned (newDetailedReport, Some (reportsError re))
    /\ StatusCode (Err re) = 500%Z
    /\ StatusCode (Err re) <> 404%Z.
Proof.
  exists (mkReportsError (mkReportsErrorBody "Not Found" "tip" 500)).
  split; [vm_compute; reflexivity|]. split; [reflexivity | discriminate].
Qed.

(** *** C4: a call without context *)




(** *** C10: an error body that cannot be decoded *)

(** C10.  For every answer outside 200..299: if its body cannot be decoded
    into a [ReportsError], [get] returns the error of the decoding, which is
    an error of [encoding/json] and not a [ReportsError], and leaves the
    output alone; and whenever [get] returns a [ReportsError], the body was
    decoded into it without error. *)
Theorem undecodable_error_body {T : Type} `{Unmarshal T}
  (network : GoHTTP.Network) (ctx : option GoHTTP.Context) (url : string)
  (report : T) (w : World) (resp : GoHTTP.Response) :
  receives network w ctx url resp ->
  is2xx (GoHTTP.StatusCode resp) = false ->
  (forall e,
     snd (decodeJSON resp newReportsError) = Some e ->
     fst (get network ctx url report w) = Returned (report, Some e)
     /\ isJSONError e = true
     /\ forall re, e <> reportsError re)
  /\ (forall out' re,
        fst (get network ctx url report w)
        = Returned (out', Some (reportsError re)) ->
        decodeJSON resp newReportsError = (re, None)).
Proof.
  intros Hrec Hstatus.
  destruct (get_receives network ctx url report w resp Hrec) as [req Hget].
  rewrite Hget, Hstatus. cbn [fst]. unfold errorOf. split.
  - intros e He.
    pose proof (decodeJSON_ReportsError_error resp newReportsError e He) as HJ.
    destruct (decodeJSON resp newReportsError) as [re0 [e0|]];
      simpl in He; [|discriminate].
    injection He as ->.
    split; [reflexivity|]. split; [exact HJ|].
    intros re ->. discriminate.
  - intros out' re Heq.
    destruct (decodeJSON resp newReportsError) as [re0 [e0|]] eqn:Hdec.
    + injection Heq as _ He0. subst e0.
      pose proof (decodeJSON_ReportsError_error resp newReportsError
                    (reportsError re)) as HJ.
      rewrite Hdec in HJ. specialize (HJ eq_refl). discriminate.
    + injection Heq as _ ->. reflexivity.
Qed.

(** The 429 answer of the API cannot be decoded. *)
Lemma undecodable_error_body_witness :
  receives (mockServer 429 tooManyRequests) freshWorld
    (Some GoHTTP.Background) detailsURL (GoHTTP.mkResponse 429 tooManyRequests)
  /\ is2xx 429 = false
  /\ snd (decodeJSON (GoHTTP.mkResponse 429 tooManyRequests) newReportsError)
     = Some (SyntaxError "invalid character")
  /\ fst (get (mockServer 429 tooManyRequests) (Some GoHTTP.Background)
            detailsURL newDetailedReport freshWorld)
     = Returned (newDetailedReport, Some (SyntaxError "invalid character")).
Proof.
  split; [apply mockServer_receives|]. split; [reflexivity|].
  split; [reflexivity|].
  exact (proj1 (proj1 (undecodable_error_body _ _ _ newDetailedReport _ _
                         (mockServer_receives 429 tooManyRequests) eq_refl)
                  (SyntaxError "invalid character") eq_refl)).
Defined.

(** *** C9: the output on the error paths *)

(** C9, as amended.  Whenever [get] returns a non-nil error and the error
    is not the decoder's for the body of an answer in 200..299 (the request
    could not be made, the context is nil, the transport failed, the status
    is outside 200..299), the caller's output is the one passed in; and
    [GetTags], whatever its request helper does, returns the nil slice
    whenever it returns a non-nil error. *)
Theorem error_leaves_output :
  (forall (T : Type) (U : Unmarshal T) (network : GoHTTP.Network)
     (ctx : option GoHTTP.Context) (url : string) (report : T) (w : World)
     (out' : T) (e : error),
      fst (get network ctx url report w) = Returned (out', Some e) ->
      (forall resp, receives network w ctx url resp ->
                    is2xx (GoHTTP.StatusCode resp) = false) ->
      out' = report)
  /\ (forall (W : Type) (workspacesPath : string) (Query : Type)
        (httpGet : forall (T : Type) `{Unmarshal T},
            option GoHTTP.Context -> string -> option Query -> T ->
            M W (T * option error))
        (ctx : option GoHTTP.Context) (workspaceID : Z) (w : W)
        (tags : option (list (option Track.Tag))) (e : error),
         fst (Track.GetTags W workspacesPath Query httpGet ctx workspaceID w)
         = Returned (tags, Some e) ->
         tags = None).
Proof.
  split.
  - intros T U network ctx url report w out' e Hget Hno2xx.
    unfold get, bind, gets, ret in Hget.
    destruct (GoHTTP.NewRequest "GET" url) as [req0|err] eqn:Hreq;
      [|cbn in Hget; congruence].
    destruct ctx as [ctx'|]; [|cbn in Hget; congruence].
    unfold Do, panic in Hget.
    destruct (httpClient (self w)) as [h|] eqn:Hh; [|cbn in Hget; discriminate].
    cbn [fst snd] in Hget.
    destruct (network h (sent w) _) as [[resp|] [err|]] eqn:Hnet;
      cbn [fst snd lift checkResponse] in Hget;
      try (cbn in Hget; congruence).
    assert (Hrec : receives network w (Some ctx') url resp).
    { exists ctx'. eexists. exists h.
      split; [reflexivity|]. split; [|split; [exact Hh | exact Hnet]].
      unfold requestOf. rewrite Hreq. reflexivity. }
    specialize (Hno2xx resp Hrec).
    rewrite outside_2xx, Hno2xx in Hget. cbn [negb] in Hget.
    destruct (decodeJSON resp newReportsError) as [re [e0|]];
      cbn in Hget; congruence.
  - intros W workspacesPath Query httpGet ctx workspaceID w tags e.
    unfold Track.GetTags, bind, ret.
    destruct (httpGet _ _ ctx _ None None w) as [[[tags0 [e0|]]|msg] w'];
      cbn; intros Heq; congruence.
Qed.

(** The 401 answer of the API, and a tag request answered with 400. *)
Lemma error_leaves_output_witness :
  fst (get (mockServer 401 (errorBody "api token missing" "tip" 401))
         (Some GoHTTP.Background) detailsURL newDetailedReport freshWorld)
  = Returned
      (newDetailedReport,
       Some (reportsError
               (mkReportsError
                  (mkReportsErrorBody "api token missing" "tip" 401))))
  /\ newDetailedReport = newDetailedReport
  /\ fst (TrackPipeline.GetTags (mockServer 400 badRequest) "workspaces"
            (Some GoHTTP.Background) 1234567 freshWorld)
     = Returned
         (None,
          Some (withMessage
                  (UnmarshalTypeError "string" "reports.ReportsError") ""))
  /\ (None : option (list (option Track.Tag))) = None.
Proof.
  assert (H1 :
    fst (get (mockServer 401 (errorBody "api token missing" "tip" 401))
           (Some GoHTTP.Background) detailsURL newDetailedReport freshWorld)
    = Returned
        (newDetailedReport,
         Some (reportsError
                 (mkReportsError
                    (mkReportsErrorBody "api token missing" "tip" 401)))))
    by (vm_compute; reflexivity).
  assert (H2 :
    fst (TrackPipeline.GetTags (mockServer 400 badRequest) "workspaces"
           (Some GoHTTP.Background) 1234567 freshWorld)
    = Returned
        (None,
         Some (withMessage
                 (UnmarshalTypeError "string" "reports.ReportsError") "")))
    by (vm_compute; reflexivity).
  split; [exact H1|]. split.
  - apply (proj1 error_leaves_output _ _ _ _ _ _ _ _ _ H1).
    intros resp (ctx' & req & h & _ & _ & _ & Hnet).
    unfold mockServer in Hnet. injection Hnet as <-. reflexivity.
  - split; [exact H2|].
    exact (proj2 error_leaves_output _ _ _ _ _ _ _ _ _ H2).
Defined.

(** C9 as stated fails: a 200 answer whose [total_count] is a number and
    whose [per_page] is a string makes [get] return the decoder's error
    after the decoder has stored the [total_count] in the output. *)
Lemma error_leaves_output_counterexample :
  fst (get (mockServer 200 mismatchBody) (Some GoHTTP.Background) detailsURL
         newDetailedReport freshWorld)
  = Returned
      (mkDetailedReport 3 0 None, Some (UnmarshalTypeError "string" "int"))
  /\ mkDetailedReport 3 0 None <> newDetailedReport.
Proof. split; [vm_compute; reflexivity | discriminate]. Qed.

(** *** C6: what the operations do to the client *)

(** C6, as amended.  [get] modifies no field of the client.  [buildURL]
    modifies neither the HTTP client, nor the token, nor the headers, but it
    does write to the base URL: it overwrites the path of the URL with the
    endpoint and leaves the other parts of the URL as they are. *)
Theorem client_after_request :
  (forall (T : Type) (U : Unmarshal T) (network : GoHTTP.Network)
     (ctx : option GoHTTP.Context) (url : string) (report : T) (w : World),
      self (snd (get network ctx url report w)) = self w)
  /\ (forall (P : Type) (E : urlEncoder P) (endpoint : string) (params : P)
        (w : World),
         let c' := self (snd (buildURL endpoint params w)) in
         httpClient c' = httpClient (self w)
         /\ Reports.apiToken c' = Reports.apiToken (self w)
         /\ header c' = header (self w)
         /\ url c' = option_map (GoURL.setPath endpoint) (url (self w))
         /\ sent (snd (buildURL endpoint params w)) = sent w).
Proof.
  split.
  - intros T U network ctx url report w.
    apply (get_world network ctx url report w).
  - intros P E endpoint params w.
    unfold buildURL, bind, gets, ret, modify, panic.
    destruct (url (self w)) as [u|] eqn:Hu;
      cbn [fst snd self sent setURL httpClient Reports.apiToken header url
             option_map];
      rewrite ?Hu; auto.
Qed.

(** C6 as stated fails: building the URL of the detailed report changes the
    URL held by a freshly made client, whose path was empty. *)
Lemma client_after_request_counterexample :
  self (snd (buildURL "/reports/api/v2/details" "user_agent=a" freshWorld))
  <> self freshWorld
  /\ option_map GoURL.Path (url (self freshWorld)) = Some ""
  /\ option_map GoURL.Path
       (url (self (snd (buildURL "/reports/api/v2/details" "user_agent=a"
                          freshWorld))))
     = Some "/reports/api/v2/details".
Proof.
  assert (H1 : option_map GoURL.Path (url (self freshWorld)) = Some "")
    by (vm_compute; reflexivity).
  assert (H2 :
    option_map GoURL.Path
      (url (self (snd (buildURL "/reports/api/v2/details" "user_agent=a"
                         freshWorld))))
    = Some "/reports/api/v2/details") by (vm_compute; reflexivity).
  split; [|split; assumption].
  intros Heq. rewrite Heq in H2. rewrite H1 in H2. discriminate.
Qed.

(** *** C8: the client [NewClient] makes *)

(** C8.  [NewClient] without options returns a client that holds the given
    token, whose URL prints as the default base URL [https://toggl.com],
    whose headers give [application/json] for [Content-type], and whose
    HTTP client is the default one.  An option appended to the list changes
    its own field of the resulting client and no other: [baseURL] the URL
    (to what [url.Parse] makes of the text), [HTTPClient] the HTTP
    client. *)
Theorem NewClient_fields :
  (forall token : string,
     let c := NewClient token [] in
     Reports.apiToken c = token
     /\ option_map GoURL.String_ (url c) = Some defaultBaseURL
     /\ defaultBaseURL = "https://toggl.com"
     /\ GoHTTP.Get "Content-type" (header c) = "application/json"
     /\ httpClient c = Some GoHTTP.DefaultClient)
  /\ (forall (token : string) (options : list Option) (rawurl : string),
        let c := NewClient token options in
        let c' := NewClient token (options ++ [baseURL rawurl]) in
        url c' = GoURL.Parse rawurl
        /\ Reports.apiToken c' = Reports.apiToken c
        /\ header c' = header c
        /\ httpClient c' = httpClient c)
  /\ (forall (token : string) (options : list Option)
        (h : option GoHTTP.Client),
        let c := NewClient token options in
        let c' := NewClient token (options ++ [HTTPClient h]) in
        httpClient c' = h
        /\ Reports.apiToken c' = Reports.apiToken c
        /\ header c' = header c
        /\ url c' = url c).
Proof.
  split; [|split].
  - intros token. cbn zeta. unfold NewClient.
    cbn [fold_left Reports.apiToken url header httpClient].
    split; [reflexivity|]. split; [vm_compute; reflexivity|].
    split; [reflexivity|]. split; [|reflexivity].
    unfold GoHTTP.Get, GoHTTP.Set_.
    replace (GoHTTP.CanonicalMIMEHeaderKey "Content-type") with "Content-Type"
      by (vm_compute; reflexivity).
    rewrite lookup_insert_eq. reflexivity.
  - intros token options rawurl. cbn zeta. unfold NewClient.
    rewrite fold_left_app. cbn [fold_left]. unfold baseURL.
    cbn [Reports.apiToken url header httpClient]. auto.
  - intros token options h. cbn zeta. unfold NewClient.
    rewrite fold_left_app. cbn [fold_left]. unfold HTTPClient.
    cbn [Reports.apiToken url header httpClient]. auto.
Qed.

(** *** C5: one round trip for every resource method *)

(** With the request helper of the spec, [GetTags] hands exactly one request
    to the transport when it is given a context and the client has a URL
    and an HTTP client. *)
Lemma GetTags_one_round_trip (network : GoHTTP.Network)
  (workspacesPath : string) (ctx : GoHTTP.Context) (workspaceID : Z)
  (w : World) :
  is_Some (url (self w)) ->
  is_Some (httpClient (self w)) ->
  roundTrips (TrackPipeline.GetTags network workspacesPath (Some ctx)
                workspaceID) w = 1%nat.
Proof.
  intros [u Hu] [h Hh].
  unfold roundTrips, TrackPipeline.GetTags, Track.GetTags.
  unfold TrackPipeline.httpGet, bind, gets, ret, panic.
  rewrite Hu. unfold Do. rewrite Hh.
  cbn [fst snd].
  match goal with
  | |- context [network h (sent w) ?req] =>
      destruct (network h (sent w) req) as [[resp|] [err|]]
  end; cbn [fst snd sent];
    try (destruct (is2xx (GoHTTP.StatusCode resp));
         [destruct (decodeJSON resp None) as [tags [e|]] |]);
    cbn [fst snd sent Wrap]; rewrite length_app; cbn [length]; lia.
Qed.

(** C5 fails on [DeleteTag].  Whatever the state and the arguments,
    [DeleteTag] returns the nil error and leaves the state as it is; run on
    a client of the pipeline it hands no request to the transport, where
    its siblings hand one: nothing is deleted on the server. *)
Theorem DeleteTag_does_nothing :
  (forall (W : Type) (ctx : option GoHTTP.Context) (workspaceID tagID : Z)
     (w : W),
      Track.DeleteTag W ctx workspaceID tagID w = (Returned None, w))
  /\ (forall (ctx : option GoHTTP.Context) (workspaceID tagID : Z)
        (w : World),
         roundTrips (Track.DeleteTag World ctx workspaceID tagID) w = 0%nat).
Proof.
  split.
  - intros W ctx workspaceID tagID w. reflexivity.
  - intros ctx workspaceID tagID w. unfold roundTrips, Track.DeleteTag, ret.
    cbn [snd]. lia.
Qed.

(** *** C7: the fixture of [TestGetTags] *)

(** C7.  When [GetTags] is called for workspace 1234567 and every request
    is answered with status 200 and the body of the fixture, the result is
    the list of exactly one tag, the one the test expects, whose ID is
    12345678 and whose name is [toggl-go], and the error is nil. *)
Theorem GetTags_fixture (network : GoHTTP.Network) (workspacesPath : string)
  (ctx : GoHTTP.Context) (w : World) :
  (forall h before req,
     network h before req
     = (Some (GoHTTP.mkResponse 200
                (GoHTTP.BodyJSON TrackPipeline.get_tags_200_ok)), None)) ->
  is_Some (url (self w)) ->
  is_Some (httpClient (self w)) ->
  exists tag : Track.Tag,
    fst (TrackPipeline.GetTags network workspacesPath (Some ctx) 1234567 w)
    = Returned (Some [Some tag], None)
    /\ tag = TrackPipeline.expectedTag
    /\ Track.ID tag = Some 12345678%Z
    /\ Track.Name tag = Some "toggl-go".
Proof.
  intros Hnet [u Hu] [h Hh].
  exists TrackPipeline.expectedTag.
  split; [|repeat split].
  unfold TrackPipeline.GetTags, Track.GetTags, TrackPipeline.httpGet.
  unfold bind, gets, ret. rewrite Hu. unfold Do. rewrite Hh.
  cbn [fst snd]. rewrite Hnet. cbn [GoHTTP.StatusCode].
  replace (is2xx 200) with true by reflexivity.
  replace (decodeJSON
             (GoHTTP.mkResponse 200
                (GoHTTP.BodyJSON TrackPipeline.get_tags_200_ok))
             (None : option (list (option Track.Tag))))
    with (Some [Some TrackPipeline.expectedTag], @None error)
    by (vm_compute; reflexivity).
  reflexivity.
Qed.

Lemma GetTags_fixture_witness :
  is_Some (url (self freshWorld))
  /\ is_Some (httpClient (self freshWorld))
  /\ fst (TrackPipeline.GetTags
            (mockServer 200 (GoHTTP.BodyJSON TrackPipeline.get_tags_200_ok))
            "api/v9/workspaces" (Some GoHTTP.Background) 1234567 freshWorld)
     = Returned (Some [Some TrackPipeline.expectedTag], None).
Proof.
  assert (Hu : is_Some (url (self freshWorld))) by (vm_compute; eauto).
  assert (Hh : is_Some (httpClient (self freshWorld))) by (vm_compute; eauto).
  split; [exact Hu|]. split; [exact Hh|].
  destruct (GetTags_fixture
              (mockServer 200 (GoHTTP.BodyJSON TrackPipeline.get_tags_200_ok))
              "api/v9/workspaces" GoHTTP.Background freshWorld
              (fun _ _ _ => eq_refl) Hu Hh) as (tag & Hget & -> & _).
  exact Hget.
Defined.

End Claims.

(** * Further properties of the code *)

Section MoreValuesFacts.

Import GoURL.

Lemma lookup_Add_ne (key value : string) (v : Values) (k : string) :
  key <> k -> Add key value v !! k = v !! k.
Proof. intros Hne. unfold Add. apply lookup_insert_ne. exact Hne. Qed.

Lemma lookup_Add_fresh (key value : string) (v : Values) :
  v !! key = None -> Add key value v !! key = Some [value].
Proof. intros H. unfold Add. rewrite lookup_insert_eq, H. reflexivity. Qed.

Lemma lookup_addIf_ne (c : bool) (key value : string) (v : Values)
  (k : string) :
  key <> k -> Reports.addIf c key value v !! k = v !! k.
Proof.
  intros Hne. unfold Reports.addIf. destruct c; [|reflexivity].
  apply lookup_Add_ne. exact Hne.
Qed.

Lemma lookup_addIf_fresh (c : bool) (key value : string) (v : Values) :
  v !! key = None ->
  Reports.addIf c key value v !! key = if c then Some [value] else None.
Proof.
  intros H. unfold Reports.addIf. destruct c; [|exact H].
  apply lookup_Add_fresh. exact H.
Qed.

Lemma size_Add_fresh (key value : string) (v : Values) :
  v !! key = None -> size (Add key value v) = S (size v).
Proof. intros H. unfold Add. apply map_size_insert_None. exact H. Qed.

Lemma size_addIf_fresh (c : bool) (key value : string) (v : Values) :
  v !! key = None ->
  size (Reports.addIf c key value v) = (Nat.b2n c + size v)%nat.
Proof.
  intros H. unfold Reports.addIf. destruct c; [|reflexivity].
  apply size_Add_fresh. exact H.
Qed.


Lemma append_empty_r (s : string) : s ++ "" = s.
Proof.
  induction s as [|c s IH]; [reflexivity|].
  change (String c (s ++ "") = String c s). rewrite IH. reflexivity.
Qed.

Lemma b2n_sum_le (l : list (string * bool)) :
  (list_sum (map (fun kb : string * bool => Nat.b2n (snd kb)) l)
   <= length l)%nat.
Proof.
  induction l as [|[k b] l IH]; simpl; [lia|]. destruct b; simpl; lia.
Qed.

End MoreValuesFacts.

(** Lookups in a chain of additions: the additions under other keys are
    skipped, the addition under the key itself is read. *)
Ltac skip_other_keys :=
  repeat first
    [ rewrite lookup_addIf_ne by (first [discriminate | congruence])
    | rewrite lookup_Add_ne by (first [discriminate | congruence]) ].

Ltac read_key :=
  skip_other_keys;
  first
    [ rewrite lookup_addIf_fresh by (skip_other_keys; apply lookup_empty)
    | rewrite lookup_Add_fresh by (skip_other_keys; apply lookup_empty)
    | apply lookup_empty ].

Module Extras.

Import GoTime GoJSON Reports Props MoreProps ReportsTest.

(** X1.  Every key of the encoded parameters holds exactly one value, the
    one of the table: a string field is encoded as it is, a time as its
    date, [without_description] as [true], and [order_desc],
    [distinct_rates] and [rounding] as [on]; a key outside the table is
    absent. *)
Theorem values_table (p : StandardRequestParameters) (key : string) :
  values p !! key = tableValues p key
  /\ (forall vs, values p !! key = Some vs -> length vs = 1%nat).
Proof.
  assert (E : values p !! key = tableValues p key).
  { unfold tableValues, valueTable. cbn [assoc]. unfold values.
    repeat match goal with
    | |- context [String.eqb ?k key] =>
        destruct (String.eqb_spec k key) as [<-|?];
          [cbv iota; read_key; reflexivity|]
    end.
    cbv iota. read_key. }
  split; [exact E|].
  intros vs Hvs. rewrite E in Hvs. unfold tableValues in Hvs.
  destruct (assoc key (valueTable p)) as [[[|] v]|]; try discriminate.
  injection Hvs as <-. reflexivity.
Qed.

(** X2.  The encoded parameters hold two keys more than there are non-zero
    optional fields: at least the two required keys, at most twenty. *)
Theorem values_size (p : StandardRequestParameters) :
  size (values p) = (2 + nonZeroCount p)%nat
  /\ (2 <= size (values p) <= 20)%nat.
Proof.
  assert (E : size (values p) = (2 + nonZeroCount p)%nat).
  { unfold values.
    repeat rewrite size_addIf_fresh by (skip_other_keys; apply lookup_empty).
    repeat rewrite size_Add_fresh by (skip_other_keys; apply lookup_empty).
    rewrite map_size_empty.
    unfold nonZeroCount, optionalFields, list_sum.
    cbn [map fold_right snd]. lia. }
  split; [exact E|].
  pose proof (b2n_sum_le (optionalFields p)) as Hle.
  change (length (optionalFields p)) with 18%nat in Hle.
  fold (nonZeroCount p) in Hle. lia.
Qed.

(** X3.  Options are applied in the order given: of two [baseURL] options,
    or of two [HTTPClient] options, the later one wins, and a [baseURL] and
    an [HTTPClient] option can be given in either order. *)
Theorem options_compose (token : string) (options : list Option) :
  (forall a b : string,
     NewClient token (options ++ [baseURL a; baseURL b])
     = NewClient token (options ++ [baseURL b]))
  /\ (forall h h' : option GoHTTP.Client,
        NewClient token (options ++ [HTTPClient h; HTTPClient h'])
        = NewClient token (options ++ [HTTPClient h']))
  /\ (forall (a : string) (h : option GoHTTP.Client),
        NewClient token (options ++ [baseURL a; HTTPClient h])
        = NewClient token (options ++ [HTTPClient h; baseURL a])).
Proof.
  unfold NewClient.
  repeat split; intros; rewrite !fold_left_app; cbn [fold_left];
    unfold baseURL, HTTPClient;
    cbn [httpClient Reports.apiToken header url]; reflexivity.
Qed.

(** X4.  Building a URL after another one gives the URL and the client that
    building it alone gives: only the last endpoint stays in the client,
    and nothing of the first call shows in the second. *)
Theorem buildURL_twice {P Q : Type} `{urlEncoder P} `{urlEncoder Q}
  (endpoint endpoint' : string) (params : P) (params' : Q) (w : World) :
  bind (buildURL endpoint params) (fun _ => buildURL endpoint' params') w
  = buildURL endpoint' params' w.
Proof.
  unfold buildURL, bind, gets, ret, modify, panic.
  destruct w as [c sent0]. cbn [self].
  destruct (url c) as [u|] eqn:Hu; cbn [fst snd self setURL url sent];
    rewrite ?Hu; reflexivity.
Qed.





(** X7.  Every request [get] hands to the transport is a GET request for
    the parsed URL that carries the caller's context and, as basic-auth
    credentials, the client's token as user name and [api_token] as
    password. *)
Theorem get_request {T : Type} `{Unmarshal T} (network : GoHTTP.Network)
  (ctx : option GoHTTP.Context) (url : string) (report : T) (w : World)
  (req : GoHTTP.Request) :
  sent (snd (get network ctx url report w)) = (sent w ++ [req])%list ->
  GoHTTP.Method req = "GET"
  /\ Some (GoHTTP.URL req) = GoURL.Parse url
  /\ GoHTTP.BasicAuth req = Some (Reports.apiToken (self w), "api_token")
  /\ Some (GoHTTP.Ctx req) = ctx.
Proof.
  assert (Hno : sent w <> (sent w ++ [req])%list).
  { intros Heq. apply (f_equal (@length _)) in Heq.
    rewrite length_app in Heq. cbn [length] in Heq. lia. }
  unfold get, bind, gets, ret, panic, GoHTTP.NewRequest.
  cbn [nonEmpty String.eqb negb].
  replace (GoHTTP.isToken "GET") with true by reflexivity. cbn [negb].
  destruct (GoURL.Parse url) as [u|]; [|cbn [snd sent]; intros; contradiction].
  destruct ctx as [ctx'|]; [|cbn [snd sent]; intros; contradiction].
  unfold Do, panic.
  destruct (httpClient (self w)) as [h|];
    [|cbn [snd sent]; intros; contradiction].
  cbn [fst snd].
  match goal with
  | |- context [network h (sent w) ?r] =>
      destruct (network h (sent w) r) as [resp err]
  end.
  cbn [fst snd]. unfold lift.
  intros Heq.
  assert (Hreq :
    (sent w ++ [GoHTTP.WithContext ctx'
                  (GoHTTP.SetBasicAuth (Reports.apiToken (self w))
                     basicAuthPassword
                     (GoHTTP.mkRequest "GET" u None GoHTTP.Background))])%list
    = (sent w ++ [req])%list).
  { rewrite <- Heq. clear Heq.
    destruct (checkResponse resp err) as [[[r|] [e|]]|msg];
      cbn [fst snd sent]; try reflexivity.
    destruct (decodeJSON r report) as [out' [e'|]]; reflexivity. }
  apply app_inv_head in Hreq. injection Hreq as <-.
  cbn. auto.
Qed.

Lemma get_request_witness :
  exists req,
    sent (snd (get (mockServer 200 reportBody) (Some GoHTTP.Background)
                 detailsURL newDetailedReport freshWorld))
    = (sent freshWorld ++ [req])%list
    /\ GoHTTP.BasicAuth req = Some ("api_token", "api_token").
Proof.
  eexists. split; [vm_compute; reflexivity|].
  refine (proj1 (proj2 (proj2
            (get_request (mockServer 200 reportBody) (Some GoHTTP.Background)
               detailsURL newDetailedReport freshWorld _ _)))).
  vm_compute. reflexivity.
Defined.



(** X9.  An error of the transport is returned to the caller as it is,
    whether or not a response comes with it, and the output is left
    alone. *)
Theorem get_transport_error {T : Type} `{Unmarshal T}
  (network : GoHTTP.Network) (ctx : GoHTTP.Context) (url : string)
  (report : T) (w : World) (req : GoHTTP.Request) (h : GoHTTP.Client)
  (err : error) :
  requestOf (self w) ctx url = Some req ->
  httpClient (self w) = Some h ->
  snd (network h (sent w) req) = Some err ->
  fst (get network (Some ctx) url report w) = Returned (report, Some err).
Proof.
  unfold requestOf. intros Hreq Hh Hnet.
  unfold get, bind, gets, ret.
  destruct (GoHTTP.NewRequest "GET" url) as [req0|e0]; [|discriminate].
  injection Hreq as Hreq. rewrite Hreq.
  unfold Do. rewrite Hh. cbn [fst snd].
  destruct (network h (sent w) req) as [resp err0]. cbn [snd] in Hnet.
  subst err0. cbn [fst snd lift checkResponse]. reflexivity.
Qed.

Lemma get_transport_error_witness :
  fst (get refusing (Some GoHTTP.Background) detailsURL newDetailedReport
         freshWorld)
  = Returned (newDetailedReport, Some (transportError "connection refused")).
Proof.
  eapply (get_transport_error refusing GoHTTP.Background detailsURL
            newDetailedReport freshWorld _ GoHTTP.DefaultClient).
  - vm_compute. reflexivity.
  - reflexivity.
  - reflexivity.
Defined.



(** X11.  [checkResponse] returns either a response or an error, never
    both and never neither.  It passes the response on exactly when there
    is no transport error and the status is between 200 and 299; a
    transport error wins over whatever response comes with it; and it
    panics exactly when it is given neither a response nor an error. *)
Theorem checkResponse_exclusive (resp : option GoHTTP.Response)
  (err : option error) :
  (forall r e,
     checkResponse resp err = Returned (r, e) ->
     (is_Some r <-> e = None)
     /\ (forall r', r = Some r' ->
                    resp = Some r' /\ err = None
                    /\ (200 <= GoHTTP.StatusCode r' <= 299)%Z))
  /\ (forall r',
        resp = Some r' -> err = None ->
        (200 <= GoHTTP.StatusCode r' <= 299)%Z ->
        checkResponse resp err = Returned (Some r', None))
  /\ (forall e0,
        err = Some e0 -> checkResponse resp err = Returned (None, Some e0))
  /\ ((exists msg, checkResponse resp err = Panicked msg)
      <-> resp = None /\ err = None).
Proof.
  assert (Hnone : forall A, ~ is_Some (@None A))
    by (intros A [x Hx]; discriminate).
  split; [|split; [|split]].
  - intros r e Hret. destruct err as [e0|].
    { cbn in Hret. injection Hret as <- <-.
      split; [split; [intros Hs; destruct (Hnone _ Hs) | discriminate]|].
      discriminate. }
    destruct resp as [r0|]; [|discriminate].
    rewrite checkResponse_response in Hret.
    destruct (is2xx (GoHTTP.StatusCode r0)) eqn:Hs;
      injection Hret as <- <-.
    + split; [split; eauto|]. intros r' Hr'. injection Hr' as <-.
      unfold is2xx in Hs. apply andb_true_iff in Hs. destruct Hs as [H1 H2].
      apply Z.leb_le in H1, H2. auto.
    + split; [split; [intros Hs'; destruct (Hnone _ Hs') | discriminate]|].
      discriminate.
  - intros r' -> -> [H1 H2]. rewrite checkResponse_response.
    replace (is2xx (GoHTTP.StatusCode r')) with true; [reflexivity|].
    symmetry. unfold is2xx. apply andb_true_iff.
    split; apply Z.leb_le; assumption.
  - intros e0 ->. reflexivity.
  - split.
    + intros [msg Hmsg]. destruct err as [e0|]; [discriminate|].
      destruct resp as [r0|]; [|auto].
      rewrite checkResponse_response in Hmsg. discriminate.
    + intros [-> ->]. eexists. reflexivity.
Qed.

Lemma checkResponse_exclusive_witness :
  checkResponse (Some (GoHTTP.mkResponse 299 reportBody)) None
  = Returned (Some (GoHTTP.mkResponse 299 reportBody), None)
  /\ checkResponse (Some (GoHTTP.mkResponse 200 reportBody))
       (Some (transportError "connection reset"))
     = Returned (None, Some (transportError "connection reset")).
Proof.
  split.
  - apply (proj1 (proj2 (checkResponse_exclusive
                           (Some (GoHTTP.mkResponse 299 reportBody)) None)));
      [reflexivity | reflexivity | cbn; lia].
  - apply (proj1 (proj2 (proj2
             (checkResponse_exclusive
                (Some (GoHTTP.mkResponse 200 reportBody))
                (Some (transportError "connection reset")))))).
    reflexivity.
Defined.

(** No member named [error]: decoding the object stores nothing. *)
Lemma valueMembers_noErrorMember (members : list (string * json))
  (out : ReportsError) (d : decodeState) :
  noErrorMember members ->
  valueMembers reportsErrorFields members out d = (out, d).
Proof.
  intros Hno. induction Hno as [|[key v] rest Hkey _ IH]; [reflexivity|].
  cbn [fst] in Hkey. cbn [valueMembers].
  assert (Hfind : findField reportsErrorFields key = None).
  { unfold findField, reportsErrorFields. cbn [find fieldName].
    destruct (String.eqb_spec "error" key) as [<-|_].
    - exfalso. apply Hkey. reflexivity.
    - replace (GoURL.ToLower "error") with "error" by reflexivity.
      destruct (String.eqb_spec "error" (GoURL.ToLower key)) as [E|_];
        [|reflexivity].
      exfalso. apply Hkey. symmetry. exact E. }
  rewrite Hfind. destruct (stopped d) eqn:Hd.
  - destruct rest; reflexivity.
  - exact IH.
Qed.

(** X12.  An answer outside 200..299 whose body is a JSON object without a
    member named [error] is not an error for the decoder: the caller gets a
    [ReportsError] whose message and tip are empty and whose status code
    is 0. *)
Theorem error_body_without_error_member (status : Z)
  (members : list (string * json)) :
  is2xx status = false ->
  noErrorMember members ->
  checkResponse
    (Some (GoHTTP.mkResponse status (GoHTTP.BodyJSON (JObject members)))) None
  = Returned (None, Some (reportsError newReportsError))
  /\ Reports.Error newReportsError
     = "HTTP Status: 0" ++ newline ++ newline ++ newline ++ newline.
Proof.
  intros Hstatus Hno. split; [|reflexivity].
  rewrite checkResponse_response. cbn [GoHTTP.StatusCode]. rewrite Hstatus.
  unfold errorOf, decodeJSON, GoHTTP.Decode, unmarshal.
  cbn [GoHTTP.RespBody value Unmarshal_ReportsError valueStruct].
  rewrite valueMembers_noErrorMember by exact Hno. reflexivity.
Qed.

Lemma error_body_without_error_member_witness :
  checkResponse
    (Some (GoHTTP.mkResponse 400
             (GoHTTP.BodyJSON
                (JObject [("message", JString "Bad Request");
                          ("code", JInt 400)])))) None
  = Returned (None, Some (reportsError newReportsError)).
Proof.
  apply (error_body_without_error_member 400
           [("message", JString "Bad Request"); ("code", JInt 400)]).
  - reflexivity.
  - repeat constructor; cbn; discriminate.
Defined.

(** X13.  [GetTags], [CreateTag] and [UpdateTag], whatever the request
    helpers do: when the helper reports an error, the result returned is
    nil and the error returned is the helper's error wrapped with an empty
    message; when it reports none, the result is the one the helper decoded
    and the error is nil; the state is the one the helper leaves.
    [GetTags] and [CreateTag] address the path of the workspace's tags,
    [UpdateTag] the tag's own path below it. *)
Theorem tag_methods_wrap (W : Type) (workspacesPath : string) (Query : Type)
  (httpGet :
     forall (T : Type) (U : Unmarshal T),
       option GoHTTP.Context -> string -> option Query -> T ->
       M W (T * option error))
  (httpPost httpPut :
     forall (B T : Type) (U : Unmarshal T),
       option GoHTTP.Context -> string -> option B -> T ->
       M W (T * option error))
  (ctx : option GoHTTP.Context) (workspaceID tagID : Z) (w : W) :
  (forall out err w',
     httpGet _ Track.Unmarshal_Tags ctx
       (GoPath.Join [workspacesPath; Itoa workspaceID; "tags"]) None None w
     = (Returned (out, err), w') ->
     Track.GetTags W workspacesPath Query httpGet ctx workspaceID w
     = (Returned (match err with
                  | Some e => (None, Some (withMessage e ""))
                  | None => (out, None)
                  end), w'))
  /\ (forall (reqBody : option Track.CreateTagRequestBody) out err w',
        httpPost _ _ Track.Unmarshal_TagPtr ctx
          (GoPath.Join [workspacesPath; Itoa workspaceID; "tags"]) reqBody
          None w
        = (Returned (out, err), w') ->
        Track.CreateTag W workspacesPath httpPost ctx workspaceID reqBody w
        = (Returned (match err with
                     | Some e => (None, Some (withMessage e ""))
                     | None => (out, None)
                     end), w'))
  /\ (forall (reqBody : option Track.UpdateTagRequestBody) out err w',
        httpPut _ _ Track.Unmarshal_TagPtr ctx
          (GoPath.Join [workspacesPath; Itoa workspaceID; "tags"; Itoa tagID])
          reqBody None w
        = (Returned (out, err), w') ->
        Track.UpdateTag W workspacesPath httpPut ctx workspaceID tagID
          reqBody w
        = (Returned (match err with
                     | Some e => (None, Some (withMessage e ""))
                     | None => (out, None)
                     end), w')).
Proof.
  split; [|split].
  - intros out err w' Hhelper. unfold Track.GetTags, bind, ret.
    rewrite Hhelper. destruct err; reflexivity.
  - intros reqBody out err w' Hhelper. unfold Track.CreateTag, bind, ret.
    rewrite Hhelper. destruct err; reflexivity.
  - intros reqBody out err w' Hhelper. unfold Track.UpdateTag, bind, ret.
    rewrite Hhelper. destruct err; reflexivity.
Qed.

Lemma tag_methods_wrap_witness :
  Track.CreateTag World "workspaces" (@failingHelper) (Some GoHTTP.Background)
    1234567 (Some (Track.mkCreateTagRequestBody (Some "toggl-go") None))
    freshWorld
  = (Returned
       (None, Some (withMessage (transportError "connection refused") "")),
     freshWorld).
Proof.
  apply (proj1 (proj2 (tag_methods_wrap World "workspaces" unit
                         (@failingHelper unit) (@failingHelper)
                         (@failingHelper) (Some GoHTTP.Background) 1234567 1
                         freshWorld))
           _ None (Some (transportError "connection refused")) freshWorld).
  reflexivity.
Defined.

(** The outcome of [get] is settled by the client and by what the transport
    answers to the request. *)
Lemma get_depends {T : Type} `{Unmarshal T} (network : GoHTTP.Network)
  (ctx : option GoHTTP.Context) (url : string) (report : T) (w1 w2 : World) :
  self w1 = self w2 ->
  (forall h req, network h (sent w1) req = network h (sent w2) req) ->
  fst (get network ctx url report w1) = fst (get network ctx url report w2).
Proof.
  intros Hself Hnet. unfold get, bind, gets, ret, panic. rewrite Hself.
  destruct (GoHTTP.NewRequest "GET" url) as [req0|e0]; [|reflexivity].
  destruct ctx as [ctx'|]; [|reflexivity].
  unfold Do, panic. destruct (httpClient (self w2)) as [h|]; [|reflexivity].
  cbn [fst snd]. rewrite Hnet.
  match goal with
  | |- context [network h (sent w2) ?r] =>
      destruct (network h (sent w2) r) as [resp err]
  end.
  cbn [fst snd]. unfold lift.
  destruct (checkResponse resp err) as [[[r|] [e|]]|msg];
    cbn [fst snd]; try reflexivity.
  destruct (decodeJSON r report) as [out' [e'|]]; reflexivity.
Qed.

(** X14.  Calls do not influence each other through the client: against a
    transport whose answers do not depend on earlier requests, a call of
    [get] made after any other call of [get] gives what it gives when made
    first. *)
Theorem get_after_get {T T' : Type} `{Unmarshal T} `{Unmarshal T'}
  (network : GoHTTP.Network) (ctx ctx' : option GoHTTP.Context)
  (url url' : string) (report : T) (report' : T') (w : World) :
  memoryless network ->
  fst (get network ctx url report (snd (get network ctx' url' report' w)))
  = fst (get network ctx url report w).
Proof.
  intros Hmem. apply get_depends.
  - apply (get_world network ctx' url' report' w).
  - intros h req. apply Hmem.
Qed.

Lemma get_after_get_witness :
  memoryless (mockServer 200 reportBody)
  /\ fst (get (mockServer 200 reportBody) (Some GoHTTP.Background) detailsURL
            newDetailedReport
            (snd (get (mockServer 200 reportBody) None brokenURL
                    newReportsError freshWorld)))
     = Returned (mkDetailedReport 1 50 None, None).
Proof.
  assert (Hmem : memoryless (mockServer 200 reportBody))
    by (intros h b b' req; reflexivity).
  split; [exact Hmem|].
  rewrite (get_after_get (mockServer 200 reportBody) (Some GoHTTP.Background)
             None detailsURL brokenURL newDetailedReport newReportsError
             freshWorld Hmem).
  vm_compute. reflexivity.
Defined.

(** X15.  [get] returns the nil error only when the transport delivered a
    response with a status between 200 and 299 and the body was decoded
    into the output without error. *)
Theorem get_success {T : Type} `{Unmarshal T} (network : GoHTTP.Network)
  (ctx : option GoHTTP.Context) (url : string) (report out' : T)
  (w : World) :
  fst (get network ctx url report w) = Returned (out', None) ->
  exists resp,
    receives network w ctx url resp
    /\ (200 <= GoHTTP.StatusCode resp <= 299)%Z
    /\ decodeJSON resp report = (out', None).
Proof.
  unfold get, bind, gets, ret, panic.
  destruct (GoHTTP.NewRequest "GET" url) as [req0|e0] eqn:Hreq;
    [|cbn; discriminate].
  destruct ctx as [ctx'|]; [|cbn; discriminate].
  unfold Do, panic.
  destruct (httpClient (self w)) as [h|] eqn:Hh; [|cbn; discriminate].
  cbn [fst snd].
  match goal with
  | |- context [network h (sent w) ?r] =>
      destruct (network h (sent w) r) as [[resp|] [err|]] eqn:Hnet
  end; cbn [fst snd lift checkResponse]; try (cbn; discriminate).
  rewrite outside_2xx.
  destruct (is2xx (GoHTTP.StatusCode resp)) eqn:Hs; cbn [negb].
  2:{ destruct (decodeJSON resp newReportsError) as [re [e|]];
        cbn; discriminate. }
  cbn [fst snd].
  destruct (decodeJSON resp report) as [out0 [e|]] eqn:Hdec;
    cbn [fst]; intros Hret; [discriminate|].
  injection Hret as <-.
  exists resp. split; [|split; [|exact Hdec]].
  - exists ctx'. eexists. exists h.
    split; [reflexivity|]. split; [|split; [exact Hh | exact Hnet]].
    unfold requestOf. rewrite Hreq. reflexivity.
  - unfold is2xx in Hs. apply andb_true_iff in Hs. destruct Hs as [H1 H2].
    apply Z.leb_le in H1, H2. auto.
Qed.

Lemma get_success_witness :
  exists resp,
    receives (mockServer 200 reportBody) freshWorld (Some GoHTTP.Background)
      detailsURL resp
    /\ (200 <= GoHTTP.StatusCode resp <= 299)%Z
    /\ decodeJSON resp newDetailedReport = (mkDetailedReport 1 50 None, None).
Proof.
  apply (get_success (mockServer 200 reportBody) (Some GoHTTP.Background)
           detailsURL newDetailedReport (mkDetailedReport 1 50 None)
           freshWorld).
  vm_compute. reflexivity.
Defined.

(** X16.  No list of [baseURL] and [HTTPClient] options changes the token or
    the headers of the client: the token is the one given to [NewClient]
    and the only header is the JSON content type. *)
Theorem options_keep_token_and_headers (token : string)
  (options : list Option) :
  Forall standardOption options ->
  Reports.apiToken (NewClient token options) = token
  /\ header (NewClient token options)
     = {[ "Content-Type" := ["application/json"] ]}.
Proof.
  induction options as [|o options IH] using rev_ind; intros Hstd.
  - split; [reflexivity|]. unfold NewClient. cbn [fold_left header].
    unfold GoHTTP.Set_.
    replace (GoHTTP.CanonicalMIMEHeaderKey "Content-type")
      with "Content-Type" by (vm_compute; reflexivity).
    rewrite insert_empty. reflexivity.
  - apply Forall_app in Hstd. destruct Hstd as [Hstd Ho].
    apply Forall_inv in Ho. specialize (IH Hstd).
    unfold NewClient in *. rewrite fold_left_app. cbn [fold_left].
    destruct Ho as [[a ->]|[h ->]]; unfold baseURL, HTTPClient;
      cbn [Reports.apiToken header]; exact IH.
Qed.

Lemma options_keep_token_and_headers_witness :
  Reports.apiToken
    (NewClient "api_token"
       [baseURL "http://127.0.0.1:8080";
        HTTPClient (Some (GoHTTP.CustomClient 1))])
  = "api_token".
Proof.
  apply (options_keep_token_and_headers "api_token"
           [baseURL "http://127.0.0.1:8080";
            HTTPClient (Some (GoHTTP.CustomClient 1))]).
  constructor; [left; eexists; reflexivity|].
  constructor; [right; eexists; reflexivity | constructor].
Defined.

End Extras.
